(** * Budget action resource of the AWS provider: model and properties

    A shallow embedding of [aws/resource_aws_budgets_budget_action.go]:
    the field validators of the schema, the expand/flatten conversions
    between configuration values and the vendor SDK structs, and the four
    lifecycle functions (create, read, update, delete) run against a
    vendor connection that answers each call from the history of calls
    made so far.

    Conventions of the embedding.
    - A Go [string] is a [string] (a sequence of bytes), [len] counts bytes.
    - A Go pointer [*T] is an [option T]; [nil] is [None].
    - A slice field of an SDK struct is an [option (list T)]: [None] is
      the nil slice, [Some []] an empty non-nil one; [len] of both is 0.
      A list of configuration values is a plain [list]: the code only
      takes its length and its elements.
    - An [interface{}] holding configuration data is a [value].
    - A run-time panic (a failed type assertion, a nil dereference) is the
      outcome [Panic].
    - A Go [float64] is a [spec_float] of the Standard Library. *)

From Stdlib Require Import ZArith Ascii String SpecFloat.
From stdpp Require Import base option list strings gmap.

Set Warnings "-register-all".
Set Default Proof Using "Type".

Local Open Scope string_scope.
Local Open Scope Z_scope.
Local Open Scope list_scope.

(** ** Go basics *)

(** [len(s)] of a string: its number of bytes, as a Go [int]. *)
Definition len (s : string) : Z := Z.of_nat (String.length s).

(** Whether the character [c] occurs in [s]. *)
Fixpoint has_char (c : ascii) (s : string) : bool :=
  match s with
  | EmptyString => false
  | String c' s' => bool_decide (c' = c) || has_char c s'
  end.

(** The error values that occur: a vendor error carrying a code
    ([awserr.Error]), the plugin SDK's [*resource.NotFoundError], a plain
    message ([errors.New], [fmt.Errorf] without [%w]), and
    [fmt.Errorf("<context>: %w", err)], which wraps [err]. *)
Inductive error : Type :=
  | AwsError (code message : string)
  | NotFoundError (message : string)
  | ErrorString (message : string)
  | Errorf (context : string) (err : error).

(** [tfawserr.ErrCodeEquals(err, code)] for a non-nil [err]: [errors.As]
    walks the chain of wrapped errors to the first [awserr.Error] and its
    code is compared. *)
Fixpoint ErrCodeEquals (err : error) (code : string) : bool :=
  match err with
  | AwsError c _ => bool_decide (c = code)
  | Errorf _ e => ErrCodeEquals e code
  | NotFoundError _ | ErrorString _ => false
  end.

(** Error codes of the vendor SDK ([budgets.ErrCode...]). *)
Definition ErrCodeAccessDeniedException : string := "AccessDeniedException".
Definition ErrCodeNotFoundException : string := "NotFoundException".

(** The result of running Go code that may panic. *)
Inductive outcome (A : Type) : Type :=
  | Done (a : A)
  | Panic.
Arguments Done {A} a.
Arguments Panic {A}.

Global Instance outcome_ret : MRet outcome := fun _ a => Done a.
Global Instance outcome_bind : MBind outcome := fun _ _ f m =>
  match m with
  | Done a => f a
  | Panic => Panic
  end.
Global Instance outcome_fmap : FMap outcome := fun _ _ f m =>
  match m with
  | Done a => Done (f a)
  | Panic => Panic
  end.

(** ** Regular expressions (package [regexp])

    The syntax tree of a compiled pattern, with the operators of
    [regexp/syntax] that the two patterns of the schema use, and matching
    by derivatives. Matching is on bytes; both patterns only distinguish
    ASCII characters, so nothing is lost on UTF-8 input. *)
Inductive Regexp : Type :=
  | OpNoMatch
  | OpEmptyMatch
  | OpCharClass (negated : bool) (chars : list ascii)
  | OpAnyCharNotNL
  | OpConcat (r1 r2 : Regexp)
  | OpAlternate (r1 r2 : Regexp)
  | OpStar (r : Regexp)
  | OpPlus (r : Regexp)
  | OpQuest (r : Regexp).

Definition newline : ascii := "010"%char.

(** Whether a single character is matched by a class [[...]] or [[^...]].
    With the default (Perl) flags a negated class does match a newline. *)
Definition in_class (negated : bool) (chars : list ascii) (c : ascii) : bool :=
  xorb negated (bool_decide (c ∈ chars)).

(** The dot: any character but a newline. *)
Definition any_char_not_nl (c : ascii) : bool := negb (bool_decide (c = newline)).

(** Declarative meaning: [Matches r s] when the whole of [s] is in the
    language of [r]. *)
Inductive Matches : Regexp → string → Prop :=
  | MEmpty : Matches OpEmptyMatch ""
  | MClass negated chars c :
      in_class negated chars c = true →
      Matches (OpCharClass negated chars) (String c "")
  | MAny c : any_char_not_nl c = true → Matches OpAnyCharNotNL (String c "")
  | MConcat r1 r2 s1 s2 :
      Matches r1 s1 → Matches r2 s2 → Matches (OpConcat r1 r2) (s1 +:+ s2)
  | MAltL r1 r2 s : Matches r1 s → Matches (OpAlternate r1 r2) s
  | MAltR r1 r2 s : Matches r2 s → Matches (OpAlternate r1 r2) s
  | MStarNil r : Matches (OpStar r) ""
  | MStarCons r s1 s2 :
      Matches r s1 → Matches (OpStar r) s2 → Matches (OpStar r) (s1 +:+ s2)
  | MPlus r s1 s2 :
      Matches r s1 → Matches (OpStar r) s2 → Matches (OpPlus r) (s1 +:+ s2)
  | MQuestNone r : Matches (OpQuest r) ""
  | MQuestSome r s : Matches r s → Matches (OpQuest r) s.

(** Does [r] match the empty string? *)
Fixpoint nullable (r : Regexp) : bool :=
  match r with
  | OpNoMatch => false
  | OpEmptyMatch => true
  | OpCharClass _ _ => false
  | OpAnyCharNotNL => false
  | OpConcat r1 r2 => nullable r1 && nullable r2
  | OpAlternate r1 r2 => nullable r1 || nullable r2
  | OpStar _ => true
  | OpPlus r1 => nullable r1
  | OpQuest _ => true
  end.

(** The derivative of [r] by the character [c]: what may follow [c]. *)
Fixpoint deriv (c : ascii) (r : Regexp) : Regexp :=
  match r with
  | OpNoMatch => OpNoMatch
  | OpEmptyMatch => OpNoMatch
  | OpCharClass negated chars =>
      if in_class negated chars c then OpEmptyMatch else OpNoMatch
  | OpAnyCharNotNL => if any_char_not_nl c then OpEmptyMatch else OpNoMatch
  | OpConcat r1 r2 =>
      if nullable r1
      then OpAlternate (OpConcat (deriv c r1) r2) (deriv c r2)
      else OpConcat (deriv c r1) r2
  | OpAlternate r1 r2 => OpAlternate (deriv c r1) (deriv c r2)
  | OpStar r1 => OpConcat (deriv c r1) (OpStar r1)
  | OpPlus r1 => OpConcat (deriv c r1) (OpStar r1)
  | OpQuest r1 => deriv c r1
  end.

(** Does [r] match some prefix of [s]? *)
Fixpoint match_prefix (r : Regexp) (s : string) : bool :=
  nullable r ||
  match s with
  | EmptyString => false
  | String c s' => match_prefix (deriv c r) s'
  end.

(** The method [MatchString] of a compiled pattern: whether [s] contains
    any match of [r]. The pattern is not anchored: a match may start and
    end anywhere in [s]. *)
Fixpoint MatchString (r : Regexp) (s : string) : bool :=
  match_prefix r s ||
  match s with
  | EmptyString => false
  | String _ s' => MatchString r s'
  end.

(** ** Configuration values

    What [d.Get] hands to the resource code as [interface{}]: [nil], a
    string, a float, a list ([[]interface{}]), a set ([*schema.Set], held
    as the list its method [List] returns) or a map
    ([map[string]interface{}]). *)
Definition float64 : Type := spec_float.

Inductive value : Type :=
  | VNil
  | VString (s : string)
  | VFloat (f : float64)
  | VList (l : list value)
  | VSet (elems : list value)
  | VMap (m : gmap string value).

Global Instance float64_eq_dec : EqDecision float64.
Proof. solve_decision. Defined.

Global Instance value_eq_dec : EqDecision value.
Proof.
  refine (fix go (x y : value) {struct x} : Decision (x = y) :=
    let _ : EqDecision value := go in
    match x, y with
    | VNil, VNil => left _
    | VString s1, VString s2 => cast_if (decide (s1 = s2))
    | VFloat f1, VFloat f2 => cast_if (decide (f1 = f2))
    | VList l1, VList l2 => cast_if (decide (l1 = l2))
    | VSet l1, VSet l2 => cast_if (decide (l1 = l2))
    | VMap m1, VMap m2 => cast_if (decide (m1 = m2))
    | _, _ => right _
    end); abstract congruence.
Defined.

(** ** Field validators (package [validation] of the plugin SDK)

    A [SchemaValidateFunc] takes the value and the name of the field and
    returns warnings and errors; the field is accepted when there is no
    error. The texts of the errors are abbreviated. *)
Definition SchemaValidateFunc : Type := value → string → list string * list error.

Definition accepts (f : SchemaValidateFunc) (i : value) (k : string) : bool :=
  bool_decide ((f i k).2 = []).

(** [validation.StringLenBetween(min, max)]. *)
Definition StringLenBetween (min max : Z) : SchemaValidateFunc := fun i k =>
  match i with
  | VString v =>
      if (len v <? min) || (max <? len v)
      then ([], [ErrorString ("expected length of " +:+ k +:+ " to be in the range")])
      else ([], [])
  | _ => ([], [ErrorString ("expected type of " +:+ k +:+ " to be string")])
  end.

(** [validation.StringMatch(r, message)], for a non-empty [message]. *)
Definition StringMatch (r : Regexp) (message : string) : SchemaValidateFunc := fun i k =>
  match i with
  | VString v =>
      if MatchString r v
      then ([], [])
      else ([], [ErrorString ("invalid value for " +:+ k +:+ " (" +:+ message +:+ ")")])
  | _ => ([], [ErrorString ("expected type of " +:+ k +:+ " to be string")])
  end.

(** [validation.All(validators...)]: every validator runs, and their
    warnings and errors are collected in order. *)
Fixpoint All (validators : list SchemaValidateFunc) : SchemaValidateFunc := fun i k =>
  match validators with
  | [] => ([], [])
  | validator :: rest =>
      let '(validatorWarnings, validatorErrors) := validator i k in
      let '(allWarnings, allErrors) := All rest i k in
      (validatorWarnings ++ allWarnings, validatorErrors ++ allErrors)
  end.

Definition colon : ascii := ":"%char.
Definition backslash : ascii := "092"%char.

(** The pattern [[^:\\]+] of the field [budget_name]: one or more
    characters other than a colon and a backslash. *)
Definition budget_name_pattern : Regexp :=
  OpPlus (OpCharClass true [colon; backslash]).

(** The [ValidateFunc] of the field [budget_name]. *)
Definition budget_name_ValidateFunc : SchemaValidateFunc :=
  All [ StringLenBetween 1 100;
        StringMatch budget_name_pattern "The ':' and '\' characters aren't allowed." ].

(** The pattern [(.*[\n\r\t\f\ ]?)*] of the field [address] of a
    subscriber. The escapes stand for newline, carriage return, tab, form
    feed and space. *)
Definition subscriber_address_pattern : Regexp :=
  OpStar (OpConcat (OpStar OpAnyCharNotNL)
            (OpQuest (OpCharClass false
               [newline; "013"%char; "009"%char; "012"%char; " "%char]))).

(** The [ValidateFunc] of the field [address] of a subscriber. *)
Definition subscriber_address_ValidateFunc : SchemaValidateFunc :=
  All [ StringLenBetween 1 2147483647;
        StringMatch subscriber_address_pattern "Can't contain line breaks." ].

(** ** Structs of the vendor SDK (package [budgets])

    Every field is a pointer or a slice, as in the SDK. One module per
    struct keeps the field names of the SDK. *)
Definition slice (A : Type) : Type := option (list A).

Definition slice_len {A : Type} (s : slice A) : nat :=
  match s with
  | None => 0%nat
  | Some l => length l
  end.

(** [aws.StringValue] and [aws.Float64Value]: the zero value for [nil]. *)
Definition StringValue (p : option string) : string := default "" p.
Definition Float64Value (p : option float64) : float64 := default (S754_zero false) p.

Module ActionThreshold.
Record t : Type := mk {
  ActionThresholdType : option string;
  ActionThresholdValue : option float64 }.
End ActionThreshold.

Module Subscriber.
Record t : Type := mk {
  Address : option string;
  SubscriptionType : option string }.
End Subscriber.

Module IamActionDefinition.
Record t : Type := mk {
  Groups : slice (option string);
  PolicyArn : option string;
  Roles : slice (option string);
  Users : slice (option string) }.
End IamActionDefinition.

Module ScpActionDefinition.
Record t : Type := mk {
  PolicyId : option string;
  TargetIds : slice (option string) }.
End ScpActionDefinition.

Module SsmActionDefinition.
Record t : Type := mk {
  ActionSubType : option string;
  InstanceIds : slice (option string);
  Region : option string }.
End SsmActionDefinition.

(** [budgets.Definition]. *)
Module Definition_.
Record t : Type := mk {
  IamActionDefinition : option IamActionDefinition.t;
  ScpActionDefinition : option ScpActionDefinition.t;
  SsmActionDefinition : option SsmActionDefinition.t }.
End Definition_.

Module Action.
Record t : Type := mk {
  ActionId : option string;
  ActionThreshold : option ActionThreshold.t;
  ActionType : option string;
  ApprovalModel : option string;
  BudgetName : option string;
  Definition_ : option Definition_.t;
  ExecutionRoleArn : option string;
  NotificationType : option string;
  Status : option string;
  Subscribers : slice (option Subscriber.t) }.
End Action.

Module CreateBudgetActionInput.
Record t : Type := mk {
  AccountId : option string;
  ActionThreshold : option ActionThreshold.t;
  ActionType : option string;
  ApprovalModel : option string;
  BudgetName : option string;
  Definition_ : option Definition_.t;
  ExecutionRoleArn : option string;
  NotificationType : option string;
  Subscribers : slice (option Subscriber.t) }.
End CreateBudgetActionInput.

Module CreateBudgetActionOutput.
Record t : Type := mk {
  AccountId : option string;
  ActionId : option string;
  BudgetName : option string }.
End CreateBudgetActionOutput.

Module UpdateBudgetActionInput.
Record t : Type := mk {
  AccountId : option string;
  ActionId : option string;
  ActionThreshold : option ActionThreshold.t;
  ApprovalModel : option string;
  BudgetName : option string;
  Definition_ : option Definition_.t;
  ExecutionRoleArn : option string;
  NotificationType : option string;
  Subscribers : slice (option Subscriber.t) }.
End UpdateBudgetActionInput.

Module DeleteBudgetActionInput.
Record t : Type := mk {
  AccountId : option string;
  ActionId : option string;
  BudgetName : option string }.
End DeleteBudgetActionInput.

(** ** Type assertions on configuration values

    The two-result form [v, ok := x.(T)] gives [None] when [x] does not
    hold a [T]; a missing key of a map reads as [nil], which holds no
    type. The one-result form [x.(T)] panics instead. *)
Definition assert_string (x : option value) : option string :=
  match x with
  | Some (VString v) => Some v
  | _ => None
  end.

Definition assert_float64 (x : option value) : option float64 :=
  match x with
  | Some (VFloat v) => Some v
  | _ => None
  end.

Definition assert_list (x : option value) : option (list value) :=
  match x with
  | Some (VList v) => Some v
  | _ => None
  end.

Definition assert_set (x : option value) : option (list value) :=
  match x with
  | Some (VSet v) => Some v
  | _ => None
  end.

Definition must_map (x : value) : outcome (gmap string value) :=
  match x with
  | VMap m => Done m
  | _ => Panic
  end.

(** [if v, ok := x.(string); ok && v != "" { field = aws.String(v) }]:
    the value the field ends with. *)
Definition non_empty_string (x : option value) : option string :=
  match assert_string x with
  | Some v => if bool_decide (v = "") then None else Some v
  | None => None
  end.

(** ** Expanders: from configuration values to SDK structs *)

Definition expandAwsBudgetsBudgetActionActionThreshold (l : list value)
  : outcome (option ActionThreshold.t) :=
  match l with
  | [] => mret None
  | l0 :: _ =>
      if bool_decide (l0 = VNil) then mret None else
      m ← must_map l0;
      mret (Some {|
        ActionThreshold.ActionThresholdType :=
          non_empty_string (m !! "action_threshold_type");
        ActionThreshold.ActionThresholdValue :=
          assert_float64 (m !! "action_threshold_value") |})
  end.

(** The loop of [expandAwsBudgetsBudgetActionSubscriber] over [l.List()],
    appending to [items]. *)
Fixpoint expandAwsBudgetsBudgetActionSubscriber_loop
    (elems : list value) (items : list (option Subscriber.t))
  : outcome (list (option Subscriber.t)) :=
  match elems with
  | [] => mret items
  | m :: rest =>
      raw ← must_map m;
      let config := {|
        Subscriber.Address := non_empty_string (raw !! "address");
        Subscriber.SubscriptionType := assert_string (raw !! "subscription_type") |} in
      expandAwsBudgetsBudgetActionSubscriber_loop rest (items ++ [Some config])
  end.

Definition expandAwsBudgetsBudgetActionSubscriber (l : list value)
  : outcome (slice (option Subscriber.t)) :=
  if bool_decide (length l = 0%nat) then mret (Some []) else
  items ← expandAwsBudgetsBudgetActionSubscriber_loop l [];
  mret (Some items).

Section Conversions.

(** [expandStringSet] and [flattenStringSet] are helpers of the provider
    defined in another file ([aws/structure.go]); the conversions below
    are parametric in them. The first turns the elements of a
    [*schema.Set] into a slice of string pointers, the second goes back. *)
Variable expandStringSet : list value → slice (option string).
Variable flattenStringSet : slice (option string) → list value.

(** [if v, ok := x.( *schema.Set ); ok && v.Len() > 0 { field = expandStringSet(v) }]:
    the value the field ends with. *)
Definition non_empty_string_set (x : option value) : slice (option string) :=
  match assert_set x with
  | Some v => if bool_decide (0 < length v)%nat then expandStringSet v else None
  | None => None
  end.

Definition expandAwsBudgetsBudgetActionActionScpActionDefinition (l : list value)
  : outcome (option ScpActionDefinition.t) :=
  match l with
  | [] => mret None
  | l0 :: _ =>
      if bool_decide (l0 = VNil) then mret None else
      m ← must_map l0;
      mret (Some {|
        ScpActionDefinition.PolicyId := non_empty_string (m !! "policy_id");
        ScpActionDefinition.TargetIds := non_empty_string_set (m !! "target_ids") |})
  end.

Definition expandAwsBudgetsBudgetActionActionSsmActionDefinition (l : list value)
  : outcome (option SsmActionDefinition.t) :=
  match l with
  | [] => mret None
  | l0 :: _ =>
      if bool_decide (l0 = VNil) then mret None else
      m ← must_map l0;
      mret (Some {|
        SsmActionDefinition.ActionSubType := non_empty_string (m !! "action_sub_type");
        SsmActionDefinition.Region := non_empty_string (m !! "region");
        SsmActionDefinition.InstanceIds := non_empty_string_set (m !! "instance_ids") |})
  end.

Definition expandAwsBudgetsBudgetActionActionIamActionDefinition (l : list value)
  : outcome (option IamActionDefinition.t) :=
  match l with
  | [] => mret None
  | l0 :: _ =>
      if bool_decide (l0 = VNil) then mret None else
      m ← must_map l0;
      mret (Some {|
        IamActionDefinition.PolicyArn := non_empty_string (m !! "policy_arn");
        IamActionDefinition.Groups := non_empty_string_set (m !! "groups");
        IamActionDefinition.Roles := non_empty_string_set (m !! "roles");
        IamActionDefinition.Users := non_empty_string_set (m !! "users") |})
  end.

(** [if v, ok := x.([]interface{}); ok && len(v) > 0 { field = expand(v) }]:
    the value the field ends with. *)
Definition non_empty_list {A : Type} (expand : list value → outcome (option A))
    (x : option value) : outcome (option A) :=
  match assert_list x with
  | Some v => if bool_decide (0 < length v)%nat then expand v else mret None
  | None => mret None
  end.

Definition expandAwsBudgetsBudgetActionActionDefinition (l : list value)
  : outcome (option Definition_.t) :=
  match l with
  | [] => mret None
  | l0 :: _ =>
      if bool_decide (l0 = VNil) then mret None else
      m ← must_map l0;
      ssm ← non_empty_list expandAwsBudgetsBudgetActionActionSsmActionDefinition
              (m !! "ssm_action_definition");
      scp ← non_empty_list expandAwsBudgetsBudgetActionActionScpActionDefinition
              (m !! "scp_action_definition");
      iam ← non_empty_list expandAwsBudgetsBudgetActionActionIamActionDefinition
              (m !! "iam_action_definition");
      mret (Some {|
        Definition_.SsmActionDefinition := ssm;
        Definition_.ScpActionDefinition := scp;
        Definition_.IamActionDefinition := iam |})
  end.

(** ** Flatteners: from SDK structs to configuration values *)

(** A [[]map[string]interface{}] stored as an [interface{}]. *)
Definition maps_value (l : list (gmap string value)) : value := VList (VMap <$> l).

(** The loop of [flattenAwsBudgetsBudgetActionSubscriber]; reading a field
    of a nil element panics. *)
Fixpoint flattenAwsBudgetsBudgetActionSubscriber_loop
    (configured : list (option Subscriber.t)) (dataResources : list (gmap string value))
  : outcome (list (gmap string value)) :=
  match configured with
  | [] => mret dataResources
  | None :: _ => Panic
  | Some raw :: rest =>
      let item : gmap string value :=
        <["subscription_type" := VString (StringValue (Subscriber.SubscriptionType raw))]>
          (<["address" := VString (StringValue (Subscriber.Address raw))]> ∅) in
      flattenAwsBudgetsBudgetActionSubscriber_loop rest (dataResources ++ [item])
  end.

Definition flattenAwsBudgetsBudgetActionSubscriber (configured : slice (option Subscriber.t))
  : outcome (list (gmap string value)) :=
  flattenAwsBudgetsBudgetActionSubscriber_loop (default [] configured) [].

Definition flattenAwsBudgetsBudgetActionActionThreshold (lt : option ActionThreshold.t)
  : list (gmap string value) :=
  match lt with
  | None => []
  | Some lt =>
      let attrs : gmap string value :=
        <["action_threshold_value" :=
            VFloat (Float64Value (ActionThreshold.ActionThresholdValue lt))]>
          (<["action_threshold_type" :=
               VString (StringValue (ActionThreshold.ActionThresholdType lt))]> ∅) in
      [attrs]
  end.

(** [if s != nil && len(s) > 0 { attrs[key] = flattenStringSet(s) }]. *)
Definition set_if_non_empty (key : string) (s : slice (option string))
    (attrs : gmap string value) : gmap string value :=
  if bool_decide (s ≠ None) && bool_decide (0 < slice_len s)%nat
  then <[key := VSet (flattenStringSet s)]> attrs
  else attrs.

Definition flattenAwsBudgetsBudgetActionIamActionDefinition (lt : option IamActionDefinition.t)
  : list (gmap string value) :=
  match lt with
  | None => []
  | Some lt =>
      let attrs : gmap string value :=
        {[ "policy_arn" := VString (StringValue (IamActionDefinition.PolicyArn lt)) ]} in
      let attrs := set_if_non_empty "users" (IamActionDefinition.Users lt) attrs in
      let attrs := set_if_non_empty "roles" (IamActionDefinition.Roles lt) attrs in
      let attrs := set_if_non_empty "groups" (IamActionDefinition.Groups lt) attrs in
      [attrs]
  end.

Definition flattenAwsBudgetsBudgetActionScpActionDefinition (lt : option ScpActionDefinition.t)
  : list (gmap string value) :=
  match lt with
  | None => []
  | Some lt =>
      let attrs : gmap string value :=
        {[ "policy_id" := VString (StringValue (ScpActionDefinition.PolicyId lt)) ]} in
      let attrs := set_if_non_empty "target_ids" (ScpActionDefinition.TargetIds lt) attrs in
      [attrs]
  end.

Definition flattenAwsBudgetsBudgetActionSsmActionDefinition (lt : option SsmActionDefinition.t)
  : list (gmap string value) :=
  match lt with
  | None => []
  | Some lt =>
      let attrs : gmap string value :=
        <["region" := VString (StringValue (SsmActionDefinition.Region lt))]>
          (<["instance_ids" := VSet (flattenStringSet (SsmActionDefinition.InstanceIds lt))]>
             (<["action_sub_type" :=
                  VString (StringValue (SsmActionDefinition.ActionSubType lt))]> ∅)) in
      [attrs]
  end.

Definition flattenAwsBudgetsBudgetActionDefinition (lt : option Definition_.t)
  : list (gmap string value) :=
  match lt with
  | None => []
  | Some lt =>
      let attrs : gmap string value := ∅ in
      let attrs :=
        match Definition_.SsmActionDefinition lt with
        | Some _ =>
            <["ssm_action_definition" :=
                maps_value (flattenAwsBudgetsBudgetActionSsmActionDefinition
                              (Definition_.SsmActionDefinition lt))]> attrs
        | None => attrs
        end in
      let attrs :=
        match Definition_.IamActionDefinition lt with
        | Some _ =>
            <["iam_action_definition" :=
                maps_value (flattenAwsBudgetsBudgetActionIamActionDefinition
                              (Definition_.IamActionDefinition lt))]> attrs
        | None => attrs
        end in
      let attrs :=
        match Definition_.ScpActionDefinition lt with
        | Some _ =>
            <["scp_action_definition" :=
                maps_value (flattenAwsBudgetsBudgetActionScpActionDefinition
                              (Definition_.ScpActionDefinition lt))]> attrs
        | None => attrs
        end in
      [attrs]
  end.

End Conversions.

(** ** Helpers of the provider's internal packages

    The identifier functions of package [tfbudgets], [tfresource.NotFound]
    and [tfresource.RetryWhenAwsErrCodeEquals] are called by the resource
    but defined in other files. *)

(** A Go result pair [(T, error)]: either the value or a non-nil error. *)
Inductive result (A : Type) : Type :=
  | Ok (a : A)
  | Err (err : error).
Arguments Ok {A} a.
Arguments Err {A} err.

(** Modelled from the spec: the separator of the composite identifier, a
    constant of package [tfbudgets], which is defined outside the resource
    file. The specification gives the identifier as
    [accountID/actionID/budgetName]. *)
Definition budgetActionResourceIDSeparator : ascii := "/"%char.

(** [strings.Join(parts, sep)] for a one-character separator. *)
Fixpoint Join (parts : list string) (sep : ascii) : string :=
  match parts with
  | [] => ""
  | [p] => p
  | p :: rest => p +:+ String sep (Join rest sep)
  end.

(** [strings.Split(s, sep)] for a one-character separator: the pieces of
    [s] between the occurrences of [sep]; never the empty list. *)
Fixpoint Split (s : string) (sep : ascii) : list string :=
  match s with
  | EmptyString => [""]
  | String c s' =>
      if bool_decide (c = sep) then "" :: Split s' sep
      else match Split s' sep with
           | p :: ps => String c p :: ps
           | [] => [String c ""]
           end
  end.

(** Modelled from the spec: [tfbudgets.BudgetActionCreateResourceID],
    defined outside the resource file. The identifier is the three
    components joined by the separator. *)
Definition BudgetActionCreateResourceID (accountID actionID budgetName : string) : string :=
  Join [accountID; actionID; budgetName] budgetActionResourceIDSeparator.

(** Modelled from the spec: [tfresource.NotFound], defined outside the
    resource file. It reports the resource-not-found error of the plugin
    SDK, looked for along the chain of wrapped errors; [nil] is not such
    an error. *)
Fixpoint NotFound_err (err : error) : bool :=
  match err with
  | NotFoundError _ => true
  | Errorf _ e => NotFound_err e
  | AwsError _ _ | ErrorString _ => false
  end.

Definition NotFound (err : option error) : bool :=
  match err with
  | Some e => NotFound_err e
  | None => false
  end.

(** ** Running against the vendor

    The calls that leave the process: the three operations of the SDK
    client, and the provider's finder and waiter, which are defined in
    other packages and query the vendor through the same client. *)
Inductive Call : Type :=
  | CallCreateBudgetAction (input : CreateBudgetActionInput.t)
  | CallUpdateBudgetAction (input : UpdateBudgetActionInput.t)
  | CallDeleteBudgetAction (input : DeleteBudgetActionInput.t)
  | CallActionByAccountIDActionIDAndBudgetName (accountID actionID budgetName : string)
  | CallActionAvailable (accountID actionID budgetName : string).

(** The connection: how the vendor answers a call, given the calls made
    before it. The answers are arbitrary; the vendor is not modelled. *)
Record Conn : Type := {
  CreateBudgetAction :
    list Call → CreateBudgetActionInput.t → result CreateBudgetActionOutput.t;
  UpdateBudgetAction : list Call → UpdateBudgetActionInput.t → option error;
  DeleteBudgetAction : list Call → DeleteBudgetActionInput.t → option error;
  ActionByAccountIDActionIDAndBudgetName :
    list Call → string → string → string → result Action.t;
  ActionAvailable : list Call → string → string → string → result Action.t }.

(** [meta.( *AWSClient )]. *)
Record AWSClient : Type := {
  budgetconn : Conn;
  accountid : string;
  partition : string }.

(** A computation that talks to the vendor: from the history of calls to
    an outcome and the extended history. The history survives a panic. *)
Definition Run (A : Type) : Type := list Call → outcome A * list Call.

Global Instance Run_ret : MRet Run := fun _ a h => (Done a, h).
Global Instance Run_bind : MBind Run := fun _ _ f m h =>
  match m h with
  | (Done a, h') => f a h'
  | (Panic, h') => (Panic, h')
  end.

(** Pure code that may panic, run in place. *)
Definition lift {A : Type} (o : outcome A) : Run A := fun h => (o, h).

(** One call: the answer is computed from the history, and the call is
    appended to it. *)
Definition call {A : Type} (c : Call) (answer : list Call → A) : Run A :=
  fun h => (Done (answer h), h ++ [c]).

(** The calls of the finder and the waiter, which only look the action up. *)
Definition is_lookup (c : Call) : bool :=
  match c with
  | CallActionByAccountIDActionIDAndBudgetName _ _ _ | CallActionAvailable _ _ _ => true
  | _ => false
  end.

(** A computation that only adds lookups to the history. *)
Definition only_lookups {A : Type} (m : Run A) : Prop :=
  ∀ h, ∃ rest, (m h).2 = h ++ rest ∧ forallb is_lookup rest = true.

(** Modelled from the spec: [tfresource.RetryWhenAwsErrCodeEquals],
    defined outside the resource file: [f] is retried when it fails with
    the named error code, any other result is returned at once. The
    timeout is counted in retries: [timeout] is the number of further
    attempts that fit in it; when it is used up the last error is
    returned. *)
Fixpoint RetryWhenAwsErrCodeEquals {A : Type} (timeout : nat) (f : Run (result A))
    (code : string) : Run (result A) :=
  r ← f;
  match r with
  | Ok output => mret (Ok output)
  | Err err =>
      if ErrCodeEquals err code
      then match timeout with
           | O => mret (Err err)
           | S timeout' => RetryWhenAwsErrCodeEquals timeout' f code
           end
      else mret (Err err)
  end.

(** ** Resource data (the plugin SDK's [schema.ResourceData])

    The identifier, the new-resource mark, the attribute values before
    the planned change and the current ones, which [Get] reads and [Set]
    writes. *)
Record ResourceData : Type := {
  Id : string;
  IsNewResource : bool;
  prior : gmap string value;
  attrs : gmap string value }.

Inductive ValueType : Type := TypeString | TypeFloat | TypeList | TypeSet.

(** The types of the top-level fields of the schema of the resource. *)
Definition schemaTypes : gmap string ValueType :=
  list_to_map [
    ("arn", TypeString); ("account_id", TypeString); ("action_id", TypeString);
    ("action_threshold", TypeList); ("action_type", TypeString);
    ("approval_model", TypeString); ("budget_name", TypeString);
    ("definition", TypeList); ("execution_role_arn", TypeString);
    ("notification_type", TypeString); ("status", TypeString);
    ("subscriber", TypeSet) ].

Definition zero_value (t : ValueType) : value :=
  match t with
  | TypeString => VString ""
  | TypeFloat => VFloat (S754_zero false)
  | TypeList => VList []
  | TypeSet => VSet []
  end.

(** Reading a field from a map of attribute values: a field that is not
    set reads as the zero value of its type. *)
Definition read_attr (m : gmap string value) (key : string) : value :=
  match m !! key with
  | Some v => v
  | None => from_option zero_value VNil (schemaTypes !! key)
  end.

(** [d.Get(key)]. *)
Definition Get (d : ResourceData) (key : string) : value := read_attr (attrs d) key.

(** [reflect.DeepEqual] on two values that [d.GetChange] has read. Strings
    and floats are compared with [==]; lists element by element; maps key
    by key. A set is a pointer to a struct that holds its hash function,
    and two function values are deeply equal only when both are nil: the
    sets of two reads are never deeply equal. *)
Fixpoint DeepEqual (x y : value) {struct x} : bool :=
  match x, y with
  | VNil, VNil => true
  | VString s1, VString s2 => bool_decide (s1 = s2)
  | VFloat f1, VFloat f2 => SFeqb f1 f2
  | VList l1, VList l2 =>
      (fix elems (l1 l2 : list value) {struct l1} : bool :=
         match l1, l2 with
         | [], [] => true
         | x1 :: l1', y1 :: l2' => DeepEqual x1 y1 && elems l1' l2'
         | _, _ => false
         end) l1 l2
  | VMap m1, VMap m2 =>
      bool_decide (size m1 = size m2)
      && map_fold (λ k x1 rest,
                     match m2 !! k with
                     | Some y1 => DeepEqual x1 y1
                     | None => false
                     end && rest) true m1
  | _, _ => false
  end.

(** The method [Equal] of a set: the other value is a set too and the
    maps of the two sets, from the hash of an element to the element, are
    deeply equal. The hash is computed from the content of an element, so
    that this is: each set has every element of the other. *)
Definition Equal (s : list value) (raw : value) : bool :=
  match raw with
  | VSet other =>
      forallb (λ x, existsb (DeepEqual x) other) s
      && forallb (λ y, existsb (λ x, DeepEqual x y) s) other
  | _ => false
  end.

(** [d.HasChange(key)]: the old and the new value of [d.GetChange(key)]
    are compared with [Equal] when the old one is a set, and with
    [reflect.DeepEqual] otherwise. *)
Definition HasChange (d : ResourceData) (key : string) : bool :=
  let o := read_attr (prior d) key in
  let n := read_attr (attrs d) key in
  match o with
  | VSet s => negb (Equal s n)
  | _ => negb (DeepEqual o n)
  end.



(** [d.SetId(v)]. *)
Definition SetId (d : ResourceData) (v : string) : ResourceData :=
  {| Id := v; IsNewResource := IsNewResource d; prior := prior d; attrs := attrs d |}.

(** Whether a value has the type the schema declares for a field. *)
Definition has_type (t : ValueType) (v : value) : bool :=
  match t, v with
  | TypeString, VString _ | TypeFloat, VFloat _ | TypeList, VList _ | TypeSet, VSet _ => true
  | _, _ => false
  end.

(** [d.Set(key, v)]: the value is written when [key] is a field of the
    schema and [v] has its type; otherwise nothing is written and an error
    is returned. *)
Definition Set_ (d : ResourceData) (key : string) (v : value) : ResourceData * option error :=
  match schemaTypes !! key with
  | Some t =>
      if has_type t v
      then ({| Id := Id d; IsNewResource := IsNewResource d; prior := prior d;
               attrs := <[key := v]> (attrs d) |}, None)
      else (d, Some (ErrorString (key +:+ ": value does not fit the schema")))
  | None => (d, Some (ErrorString ("Invalid address to set: " +:+ key)))
  end.

(** The one-result type assertions applied to [d.Get(key)]. *)
Definition must_string (x : value) : outcome string :=
  match x with
  | VString v => Done v
  | _ => Panic
  end.

Definition must_list (x : value) : outcome (list value) :=
  match x with
  | VList v => Done v
  | _ => Panic
  end.

Definition must_set (x : value) : outcome (list value) :=
  match x with
  | VSet v => Done v
  | _ => Panic
  end.

(** [arn.ARN{...}.String()]. *)
Definition arn_String (Partition Service Region AccountID Resource : string) : string :=
  "arn:" +:+ Partition +:+ ":" +:+ Service +:+ ":" +:+ Region +:+ ":" +:+ AccountID
    +:+ ":" +:+ Resource.

(** ** The lifecycle functions *)

Section Lifecycle.

(** [tfbudgets.BudgetActionParseResourceID] is defined in another package
    of the provider: it cuts an identifier into the account ID, the
    action ID and the budget name, or returns an error. *)
Variable BudgetActionParseResourceID : string → result (string * string * string).

Variable expandStringSet : list value → slice (option string).
Variable flattenStringSet : slice (option string) → list value.

(** [iamwaiter.PropagationTimeout], a constant of another package, as the
    number of retries that fit in it. *)
Variable PropagationTimeout : nat.

Definition resourceAwsBudgetsBudgetActionRead (d : ResourceData) (meta : AWSClient)
  : Run (ResourceData * option error) :=
  let conn := budgetconn meta in
  match BudgetActionParseResourceID (Id d) with
  | Err err => mret (d, Some err)
  | Ok (accountID, actionID, budgetName) =>
      found ← call (CallActionByAccountIDActionIDAndBudgetName accountID actionID budgetName)
                (λ h, ActionByAccountIDActionIDAndBudgetName conn h accountID actionID budgetName);
      let err := match found with Err err => Some err | Ok _ => None end in
      if negb (IsNewResource d) && NotFound err then
        let d := SetId d "" in
        mret (d, None)
      else
      match found with
      | Err err => mret (d, Some (Errorf ("error reading Budget Action (" +:+ Id d +:+ ")") err))
      | Ok output =>
          let d := (Set_ d "account_id" (VString accountID)).1 in
          let d := (Set_ d "action_id" (VString actionID)).1 in
          let '(d, err) := Set_ d "action_threshold"
                             (maps_value (flattenAwsBudgetsBudgetActionActionThreshold
                                            (Action.ActionThreshold output))) in
          match err with
          | Some err => mret (d, Some (Errorf "error setting action_threshold" err))
          | None =>
          let d := (Set_ d "action_type"
                      (VString (StringValue (Action.ActionType output)))).1 in
          let d := (Set_ d "approval_model"
                      (VString (StringValue (Action.ApprovalModel output)))).1 in
          let d := (Set_ d "budget_name" (VString budgetName)).1 in
          let '(d, err) := Set_ d "definition"
                             (maps_value (flattenAwsBudgetsBudgetActionDefinition
                                            flattenStringSet (Action.Definition_ output))) in
          match err with
          | Some err => mret (d, Some (Errorf "error setting definition" err))
          | None =>
          let d := (Set_ d "execution_role_arn"
                      (VString (StringValue (Action.ExecutionRoleArn output)))).1 in
          let d := (Set_ d "notification_type"
                      (VString (StringValue (Action.NotificationType output)))).1 in
          let d := (Set_ d "status" (VString (StringValue (Action.Status output)))).1 in
          subscribers ← lift (flattenAwsBudgetsBudgetActionSubscriber
                                (Action.Subscribers output));
          let '(d, err) := Set_ d "subscriber" (VSet (VMap <$> subscribers)) in
          match err with
          | Some err => mret (d, Some (Errorf "error setting subscriber" err))
          | None =>
          let arn := arn_String (partition meta) "budgets" "" (accountid meta)
                       ("budget/" +:+ budgetName +:+ "/action/" +:+ actionID) in
          let d := (Set_ d "arn" (VString arn)).1 in
          mret (d, None)
          end
          end
          end
      end
  end.

Definition resourceAwsBudgetsBudgetActionCreate (d : ResourceData) (meta : AWSClient)
  : Run (ResourceData * option error) :=
  let conn := budgetconn meta in
  accountID ← lift (must_string (Get d "account_id"));
  let accountID := if bool_decide (accountID = "") then accountid meta else accountID in
  actionThreshold ← lift (l ← must_list (Get d "action_threshold");
                          expandAwsBudgetsBudgetActionActionThreshold l);
  actionType ← lift (must_string (Get d "action_type"));
  approvalModel ← lift (must_string (Get d "approval_model"));
  budgetName ← lift (must_string (Get d "budget_name"));
  definition ← lift (l ← must_list (Get d "definition");
                     expandAwsBudgetsBudgetActionActionDefinition expandStringSet l);
  executionRoleArn ← lift (must_string (Get d "execution_role_arn"));
  notificationType ← lift (must_string (Get d "notification_type"));
  subscribers ← lift (l ← must_set (Get d "subscriber");
                      expandAwsBudgetsBudgetActionSubscriber l);
  let input := {|
    CreateBudgetActionInput.AccountId := Some accountID;
    CreateBudgetActionInput.ActionThreshold := actionThreshold;
    CreateBudgetActionInput.ActionType := Some actionType;
    CreateBudgetActionInput.ApprovalModel := Some approvalModel;
    CreateBudgetActionInput.BudgetName := Some budgetName;
    CreateBudgetActionInput.Definition_ := definition;
    CreateBudgetActionInput.ExecutionRoleArn := Some executionRoleArn;
    CreateBudgetActionInput.NotificationType := Some notificationType;
    CreateBudgetActionInput.Subscribers := subscribers |} in
  outputRaw ← RetryWhenAwsErrCodeEquals PropagationTimeout
                 (call (CallCreateBudgetAction input) (λ h, CreateBudgetAction conn h input))
                 ErrCodeAccessDeniedException;
  match outputRaw with
  | Err err => mret (d, Some (Errorf "error creating Budget Action" err))
  | Ok output =>
      let actionID := StringValue (CreateBudgetActionOutput.ActionId output) in
      let budgetName := StringValue (CreateBudgetActionOutput.BudgetName output) in
      let d := SetId d (BudgetActionCreateResourceID accountID actionID budgetName) in
      available ← call (CallActionAvailable accountID actionID budgetName)
                    (λ h, ActionAvailable conn h accountID actionID budgetName);
      match available with
      | Err err =>
          mret (d, Some (Errorf ("error waiting for Budget Action (" +:+ Id d
                                   +:+ ") to create") err))
      | Ok _ => resourceAwsBudgetsBudgetActionRead d meta
      end
  end.

Definition resourceAwsBudgetsBudgetActionUpdate (d : ResourceData) (meta : AWSClient)
  : Run (ResourceData * option error) :=
  let conn := budgetconn meta in
  match BudgetActionParseResourceID (Id d) with
  | Err err => mret (d, Some err)
  | Ok (accountID, actionID, budgetName) =>
      actionThreshold ←
        (if HasChange d "action_threshold"
         then lift (l ← must_list (Get d "action_threshold");
                    expandAwsBudgetsBudgetActionActionThreshold l)
         else mret None);
      approvalModel ←
        (if HasChange d "approval_model"
         then lift (Some <$> must_string (Get d "approval_model"))
         else mret None);
      definition ←
        (if HasChange d "definition"
         then lift (l ← must_list (Get d "definition");
                    expandAwsBudgetsBudgetActionActionDefinition expandStringSet l)
         else mret None);
      executionRoleArn ←
        (if HasChange d "execution_role_arn"
         then lift (Some <$> must_string (Get d "execution_role_arn"))
         else mret None);
      notificationType ←
        (if HasChange d "notification_type"
         then lift (Some <$> must_string (Get d "notification_type"))
         else mret None);
      subscribers ←
        (if HasChange d "subscriber"
         then lift (l ← must_set (Get d "subscriber");
                    expandAwsBudgetsBudgetActionSubscriber l)
         else mret None);
      let input := {|
        UpdateBudgetActionInput.AccountId := Some accountID;
        UpdateBudgetActionInput.ActionId := Some actionID;
        UpdateBudgetActionInput.BudgetName := Some budgetName;
        UpdateBudgetActionInput.ActionThreshold := actionThreshold;
        UpdateBudgetActionInput.ApprovalModel := approvalModel;
        UpdateBudgetActionInput.Definition_ := definition;
        UpdateBudgetActionInput.ExecutionRoleArn := executionRoleArn;
        UpdateBudgetActionInput.NotificationType := notificationType;
        UpdateBudgetActionInput.Subscribers := subscribers |} in
      updated ← call (CallUpdateBudgetAction input) (λ h, UpdateBudgetAction conn h input);
      match updated with
      | Some err =>
          mret (d, Some (Errorf ("error updating Budget Action (" +:+ Id d +:+ ")") err))
      | None =>
          available ← call (CallActionAvailable accountID actionID budgetName)
                        (λ h, ActionAvailable conn h accountID actionID budgetName);
          match available with
          | Err err =>
              mret (d, Some (Errorf ("error waiting for Budget Action (" +:+ Id d
                                       +:+ ") to update") err))
          | Ok _ => resourceAwsBudgetsBudgetActionRead d meta
          end
      end
  end.

Definition resourceAwsBudgetsBudgetActionDelete (d : ResourceData) (meta : AWSClient)
  : Run (ResourceData * option error) :=
  let conn := budgetconn meta in
  match BudgetActionParseResourceID (Id d) with
  | Err err => mret (d, Some err)
  | Ok (accountID, actionID, budgetName) =>
      let input := {|
        DeleteBudgetActionInput.AccountId := Some accountID;
        DeleteBudgetActionInput.ActionId := Some actionID;
        DeleteBudgetActionInput.BudgetName := Some budgetName |} in
      deleted ← call (CallDeleteBudgetAction input) (λ h, DeleteBudgetAction conn h input);
      match deleted with
      | None => mret (d, None)
      | Some err =>
          if ErrCodeEquals err ErrCodeNotFoundException then mret (d, None)
          else mret (d, Some (Errorf ("error deleting Budget Action (" +:+ Id d +:+ ")") err))
      end
  end.

End Lifecycle.

(** ** What the schema guarantees about the values handed to the resource *)

(** A nested block reads as a map, or as [nil] when the block is empty. *)
Definition is_block (v : value) : bool :=
  match v with
  | VNil | VMap _ => true
  | _ => false
  end.

Definition is_map (v : value) : bool :=
  match v with
  | VMap _ => true
  | _ => false
  end.

Definition is_string (v : value) : bool :=
  match v with
  | VString _ => true
  | _ => false
  end.

(** A list of blocks, as far as the expanders look: the first element. *)
Definition block_list (l : list value) : bool :=
  match l with
  | [] => true
  | l0 :: _ => is_block l0
  end.

(** The entry of a map for a nested list of blocks. *)
Definition nested_block_list (x : option value) : bool :=
  match assert_list x with
  | Some v => block_list v
  | None => true
  end.

Definition definition_list (l : list value) : bool :=
  match l with
  | [] => true
  | VNil :: _ => true
  | VMap m :: _ =>
      nested_block_list (m !! "ssm_action_definition")
      && nested_block_list (m !! "scp_action_definition")
      && nested_block_list (m !! "iam_action_definition")
  | _ => false
  end.

(** The fields read by create and update hold values of the types the
    schema declares for them. *)
Definition well_typed (d : ResourceData) : bool :=
  is_string (Get d "account_id")
  && match Get d "action_threshold" with VList l => block_list l | _ => false end
  && is_string (Get d "action_type")
  && is_string (Get d "approval_model")
  && is_string (Get d "budget_name")
  && match Get d "definition" with VList l => definition_list l | _ => false end
  && is_string (Get d "execution_role_arn")
  && is_string (Get d "notification_type")
  && match Get d "subscriber" with VSet l => forallb is_map l | _ => false end.

(** A list of blocks from which an expander builds a struct: it is not
    empty and its first element is not [nil]. *)
Definition populated (l : list value) : bool :=
  match l with
  | [] => false
  | l0 :: _ => negb (bool_decide (l0 = VNil))
  end.

Definition nested_populated (x : option value) : bool :=
  match assert_list x with
  | Some v => populated v
  | None => false
  end.


(** The number of branches of a [budgets.Definition] that are not nil. *)
Definition non_nil {A : Type} (p : option A) : bool :=
  match p with
  | Some _ => true
  | None => false
  end.

Definition populated_branches (def : Definition_.t) : nat :=
  ((if non_nil (Definition_.IamActionDefinition def) then 1 else 0)
   + (if non_nil (Definition_.SsmActionDefinition def) then 1 else 0)
   + (if non_nil (Definition_.ScpActionDefinition def) then 1 else 0))%nat.

(** The number of branches that the map of a [definition] block populates. *)
Definition configured_branches (m : gmap string value) : nat :=
  ((if nested_populated (m !! "iam_action_definition") then 1 else 0)
   + (if nested_populated (m !! "ssm_action_definition") then 1 else 0)
   + (if nested_populated (m !! "scp_action_definition") then 1 else 0))%nat.

(** *** The schema of the field [definition] as a predicate

    What validation against the schema lets through, read off the value
    of [d.Get("definition")]: [Required] fields are present, lists and
    sets respect [MaxItems], and strings pass their [ValidateFunc]. No
    field of the schema relates the three branches to each other. *)

(** [validation.StringInSlice(valid, false)]. *)
Definition StringInSlice (valid : list string) : SchemaValidateFunc := fun i k =>
  match i with
  | VString v =>
      if bool_decide (v ∈ valid) then ([], [])
      else ([], [ErrorString ("expected " +:+ k +:+ " to be one of the valid values")])
  | _ => ([], [ErrorString ("expected type of " +:+ k +:+ " to be string")])
  end.

(** [budgets.ActionSubType_Values()]. *)
Definition ActionSubType_Values : list string :=
  ["STOP_EC2_INSTANCES"; "STOP_RDS_INSTANCES"].

Definition NoValidateFunc : SchemaValidateFunc := fun _ _ => ([], []).

(** A [TypeString] field that is [Required]. *)
Definition required_string (validate : SchemaValidateFunc) (k : string)
    (x : option value) : bool :=
  match x with
  | Some (VString v) => accepts validate (VString v) k
  | _ => false
  end.

(** A [TypeSet] of strings with [MaxItems]. *)
Definition string_set (required : bool) (maxItems : nat) (x : option value) : bool :=
  match x with
  | Some (VSet elems) =>
      (negb required || bool_decide (0 < length elems)%nat)
      && bool_decide (length elems ≤ maxItems)%nat
      && forallb is_string elems
  | None => negb required
  | _ => false
  end.

(** An [Optional] [TypeList] of at most one block. *)
Definition optional_block (block : value → bool) (x : option value) : bool :=
  match x with
  | Some (VList l) => bool_decide (length l ≤ 1)%nat && forallb block l
  | None => true
  | _ => false
  end.

Section Schema.

(** [validateArn] is defined in another file of the provider. *)
Variable validateArn : SchemaValidateFunc.

Definition iam_action_definition_schema (v : value) : bool :=
  match v with
  | VMap m =>
      required_string validateArn "policy_arn" (m !! "policy_arn")
      && string_set false 100 (m !! "groups")
      && string_set false 100 (m !! "roles")
      && string_set false 100 (m !! "users")
  | _ => false
  end.

Definition ssm_action_definition_schema (v : value) : bool :=
  match v with
  | VMap m =>
      required_string (StringInSlice ActionSubType_Values) "action_sub_type"
        (m !! "action_sub_type")
      && string_set true 100 (m !! "instance_ids")
      && required_string NoValidateFunc "region" (m !! "region")
  | _ => false
  end.

Definition scp_action_definition_schema (v : value) : bool :=
  match v with
  | VMap m =>
      required_string NoValidateFunc "policy_id" (m !! "policy_id")
      && string_set true 100 (m !! "target_ids")
  | _ => false
  end.

(** A [definition] block: each branch is optional; a block without any
    branch reads as [nil]. *)
Definition definition_block_schema (v : value) : bool :=
  match v with
  | VNil => true
  | VMap m =>
      optional_block iam_action_definition_schema (m !! "iam_action_definition")
      && optional_block ssm_action_definition_schema (m !! "ssm_action_definition")
      && optional_block scp_action_definition_schema (m !! "scp_action_definition")
  | _ => false
  end.

(** The field [definition]: [Required], [MaxItems: 1]. *)
Definition definition_schema (l : list value) : bool :=
  bool_decide (length l = 1%nat) && forallb definition_block_schema l.

End Schema.

(** ** Sample data

    A budget action as the resource sees it, the vendor's record of it,
    and connections that answer in the ways the properties below are
    about. They serve to run the model on concrete inputs. *)

Definition sample_expandStringSet (elems : list value) : slice (option string) :=
  Some ((λ v, assert_string (Some v)) <$> elems).

Definition sample_flattenStringSet (s : slice (option string)) : list value :=
  (λ p, VString (StringValue p)) <$> default [] s.

(** A validator that lets nothing through. *)
Definition reject_all : SchemaValidateFunc := fun _ k =>
  ([], [ErrorString ("invalid value for " +:+ k)]).

Definition sample_ssm_block : value :=
  VMap (list_to_map [
    ("action_sub_type", VString "STOP_EC2_INSTANCES");
    ("instance_ids", VSet [VString "i-0123456789abcdef0"]);
    ("region", VString "eu-west-1") ]).

Definition sample_scp_block : value :=
  VMap (list_to_map [
    ("policy_id", VString "p-12345678");
    ("target_ids", VSet [VString "ou-abcd-12345678"]) ]).

(** A [definition] block with the SSM branch alone. *)
Definition sample_ssm_only : gmap string value :=
  list_to_map [
    ("iam_action_definition", VList []);
    ("ssm_action_definition", VList [sample_ssm_block]);
    ("scp_action_definition", VList []) ].

Definition sample_definition_ssm : list value := [VMap sample_ssm_only].

(** A [definition] block with both the SSM and the SCP branch. *)
Definition sample_ssm_and_scp : gmap string value :=
  list_to_map [
    ("iam_action_definition", VList []);
    ("ssm_action_definition", VList [sample_ssm_block]);
    ("scp_action_definition", VList [sample_scp_block]) ].

Definition sample_definition_ssm_scp : list value := [VMap sample_ssm_and_scp].

(** A [definition] block without any branch. *)
Definition sample_definition_empty : list value := [VNil].

Definition sample_threshold : list value :=
  [VMap (list_to_map [
     ("action_threshold_type", VString "PERCENTAGE");
     ("action_threshold_value", VFloat (S754_finite false 25 2)) ])].

Definition sample_subscriber : list value :=
  [VMap (list_to_map [
     ("address", VString "ops@example.com");
     ("subscription_type", VString "EMAIL") ])].

Definition sample_attrs : gmap string value :=
  list_to_map [
    ("account_id", VString "123456789012");
    ("action_threshold", VList sample_threshold);
    ("action_type", VString "RUN_SSM_DOCUMENTS");
    ("approval_model", VString "AUTOMATIC");
    ("budget_name", VString "monthly");
    ("definition", VList sample_definition_ssm);
    ("execution_role_arn", VString "arn:aws:iam::123456789012:role/budget-action");
    ("notification_type", VString "ACTUAL");
    ("subscriber", VSet sample_subscriber) ].

(** A parser for identifiers of the form [accountID/actionID/budgetName],
    to run the lifecycle functions on the sample data. *)
Definition sample_BudgetActionParseResourceID (id : string)
  : result (string * string * string) :=
  match Split id budgetActionResourceIDSeparator with
  | [accountID; actionID; budgetName] => Ok (accountID, actionID, budgetName)
  | _ => Err (ErrorString ("unexpected format for ID (" +:+ id +:+ ")"))
  end.

(** An existing action whose approval model is being changed. *)
Definition sample_data : ResourceData := {|
  Id := "123456789012/a1b2c3/monthly";
  IsNewResource := false;
  prior := sample_attrs;
  attrs := <["approval_model" := VString "MANUAL"]> sample_attrs |}.

Definition sample_action : Action.t := {|
  Action.ActionId := Some "a1b2c3";
  Action.ActionThreshold := Some {|
    ActionThreshold.ActionThresholdType := Some "PERCENTAGE";
    ActionThreshold.ActionThresholdValue := Some (S754_finite false 25 2) |};
  Action.ActionType := Some "RUN_SSM_DOCUMENTS";
  Action.ApprovalModel := Some "AUTOMATIC";
  Action.BudgetName := Some "monthly";
  Action.Definition_ := Some {|
    Definition_.IamActionDefinition := None;
    Definition_.ScpActionDefinition := None;
    Definition_.SsmActionDefinition := Some {|
      SsmActionDefinition.ActionSubType := Some "STOP_EC2_INSTANCES";
      SsmActionDefinition.InstanceIds := Some [Some "i-0123456789abcdef0"];
      SsmActionDefinition.Region := Some "eu-west-1" |} |};
  Action.ExecutionRoleArn := Some "arn:aws:iam::123456789012:role/budget-action";
  Action.NotificationType := Some "ACTUAL";
  Action.Status := Some "STANDBY";
  Action.Subscribers := Some [Some {|
    Subscriber.Address := Some "ops@example.com";
    Subscriber.SubscriptionType := Some "EMAIL" |}] |}.

(** A vendor that carries out every call. *)
Definition sample_conn : Conn := {|
  CreateBudgetAction := λ _ _, Ok {|
    CreateBudgetActionOutput.AccountId := Some "123456789012";
    CreateBudgetActionOutput.ActionId := Some "a1b2c3";
    CreateBudgetActionOutput.BudgetName := Some "monthly" |};
  UpdateBudgetAction := λ _ _, None;
  DeleteBudgetAction := λ _ _, None;
  ActionByAccountIDActionIDAndBudgetName := λ _ _ _ _, Ok sample_action;
  ActionAvailable := λ _ _ _ _, Ok sample_action |}.

(** A vendor that no longer has the action. *)
Definition sample_conn_gone : Conn := {|
  CreateBudgetAction := CreateBudgetAction sample_conn;
  UpdateBudgetAction := λ _ _, Some (AwsError ErrCodeNotFoundException "no such action");
  DeleteBudgetAction := λ _ _, Some (AwsError ErrCodeNotFoundException "no such action");
  ActionByAccountIDActionIDAndBudgetName := λ _ _ _ _,
    Err (NotFoundError "couldn't find resource");
  ActionAvailable := λ _ _ _ _, Err (NotFoundError "couldn't find resource") |}.

(** A vendor that denies access to the first two calls and then finds
    the request invalid. *)
Definition sample_conn_denied : Conn := {|
  CreateBudgetAction := λ h _,
    if bool_decide (length h < 2)%nat
    then Err (AwsError ErrCodeAccessDeniedException "role not yet usable")
    else Err (AwsError "InvalidParameterException" "invalid request");
  UpdateBudgetAction := UpdateBudgetAction sample_conn;
  DeleteBudgetAction := DeleteBudgetAction sample_conn;
  ActionByAccountIDActionIDAndBudgetName := ActionByAccountIDActionIDAndBudgetName sample_conn;
  ActionAvailable := ActionAvailable sample_conn |}.

Definition sample_meta (conn : Conn) : AWSClient := {|
  budgetconn := conn;
  accountid := "123456789012";
  partition := "aws" |}.

(** ** The configuration of a subscriber

    An element of the set [subscriber] as the schema shapes it: a map with
    the two string fields [address] and [subscription_type]. *)
Definition subscriber_config (address subscription_type : string) : gmap string value :=
  <["subscription_type" := VString subscription_type]> (<["address" := VString address]> ∅).

(** Resource data that differ at most in the current attribute values:
    the identifier, the new-resource mark and the prior values agree. *)
Definition same_resource (d d' : ResourceData) : Prop :=
  Id d' = Id d ∧ IsNewResource d' = IsNewResource d ∧ prior d' = prior d.

(** ** The checks of the EC2 tag resource

    [testAccCheckEc2TagDestroy] walks the resources of the state and asks
    the vendor for the tag of every [aws_ec2_tag] resource;
    [testAccCheckEc2TagExists] asks for the tag of one named resource. The
    package [terraform] of the plugin SDK gives the state: a map from
    names to resource states, each of which points to its primary
    instance; that pointer may be nil. *)
Module terraform.
Record InstanceState : Type := { ID : string }.
Record ResourceState : Type := { Type_ : string; Primary : option InstanceState }.
End terraform.

(** Reading a field through a pointer: a nil pointer panics. *)
Definition deref {A : Type} (p : option A) : outcome A :=
  match p with
  | Some a => Done a
  | None => Panic
  end.

(** [ec2.ServiceID] of the vendor SDK. *)
Definition ec2_ServiceID : string := "EC2".

Section Ec2TagCheck.

(** [tagresource.GetResourceID] and [keyvaluetags.Ec2GetTag] are defined in
    other packages of the provider. The first cuts the identifier of a tag
    resource into the identifier of the tagged resource and the key; the
    second asks the vendor for the value of the tag. The vendor's tags are
    taken not to change while the check runs, so the answer depends on the
    identifier and the key alone. *)
Variable GetResourceID : string → result (string * string).
Variable Ec2GetTag : string → string → result (option string).

(** The body of the loop of [testAccCheckEc2TagDestroy] over the resources
    in the order in which [range] visits the map, which Go leaves open. *)
Fixpoint testAccCheckEc2TagDestroy (resources : list terraform.ResourceState)
  : outcome (option error) :=
  match resources with
  | [] => mret None
  | rs :: rest =>
      if bool_decide (terraform.Type_ rs ≠ "aws_ec2_tag")
      then testAccCheckEc2TagDestroy rest
      else
        primary ← deref (terraform.Primary rs);
        match GetResourceID (terraform.ID primary) with
        | Err err => mret (Some err)
        | Ok (identifier, key) =>
            match Ec2GetTag identifier key with
            | Err err =>
                if NotFound (Some err) then testAccCheckEc2TagDestroy rest
                else mret (Some err)
            | Ok _ =>
                mret (Some (ErrorString (ec2_ServiceID +:+ " resource (" +:+ identifier
                                           +:+ ") tag (" +:+ key +:+ ") still exists")))
            end
        end
  end.

(** The check that [testAccCheckEc2TagExists] returns for a resource name,
    run on the resources of the state. *)
Definition testAccCheckEc2TagExists (resourceName : string)
    (resources : gmap string terraform.ResourceState) : outcome (option error) :=
  match resources !! resourceName with
  | None => mret (Some (ErrorString ("not found: " +:+ resourceName)))
  | Some rs =>
      primary ← deref (terraform.Primary rs);
      if bool_decide (terraform.ID primary = "")
      then mret (Some (ErrorString (resourceName +:+ ": missing resource ID")))
      else
        match GetResourceID (terraform.ID primary) with
        | Err err => mret (Some err)
        | Ok (identifier, key) =>
            match Ec2GetTag identifier key with
            | Err err => mret (Some err)
            | Ok _ => mret None
            end
        end
  end.

(** A resource that the destroy check passes over: it is no tag resource, or its
    identifier parses and the vendor reports that the tag is not found. *)
Definition tag_gone (rs : terraform.ResourceState) : bool :=
  if bool_decide (terraform.Type_ rs ≠ "aws_ec2_tag") then true else
  match terraform.Primary rs with
  | None => false
  | Some primary =>
      match GetResourceID (terraform.ID primary) with
      | Err _ => false
      | Ok (identifier, key) =>
          match Ec2GetTag identifier key with
          | Err err => NotFound (Some err)
          | Ok _ => false
          end
      end
  end.

End Ec2TagCheck.

(** Sample data for the checks: identifiers of the form [resource,key],
    and a vendor that has the tag [Name] of one instance. *)
Definition sample_GetResourceID (id : string) : result (string * string) :=
  match Split id ","%char with
  | [identifier; key] => Ok (identifier, key)
  | _ => Err (ErrorString ("invalid resource ID (" +:+ id +:+ ")"))
  end.

Definition sample_Ec2GetTag (identifier key : string) : result (option string) :=
  if bool_decide (identifier = "i-0123456789abcdef0") && bool_decide (key = "Name")
  then Ok (Some "web")
  else Err (NotFoundError "couldn't find resource").

Definition sample_tag_resources : list terraform.ResourceState :=
  [ {| terraform.Type_ := "aws_instance";
       terraform.Primary := Some {| terraform.ID := "i-0123456789abcdef0" |} |};
    {| terraform.Type_ := "aws_ec2_tag";
       terraform.Primary := Some {| terraform.ID := "i-0123456789abcdef0,Owner" |} |} ].

Definition sample_tag_state : gmap string terraform.ResourceState :=
  <["aws_ec2_tag.name" :=
      {| terraform.Type_ := "aws_ec2_tag";
         terraform.Primary := Some {| terraform.ID := "i-0123456789abcdef0,Name" |} |}]>
  (<["aws_instance.web" :=
      {| terraform.Type_ := "aws_instance";
         terraform.Primary := Some {| terraform.ID := "i-0123456789abcdef0" |} |}]> ∅).

(** * Properties *)

(** ** Strings *)

Lemma append_cons (c : ascii) (s1 s2 : string) :
  String c s1 +:+ s2 = String c (s1 +:+ s2).
Proof. reflexivity. Qed.

Lemma append_nil_l (s : string) : "" +:+ s = s.
Proof. reflexivity. Qed.

Lemma append_assoc (s1 s2 s3 : string) : (s1 +:+ s2) +:+ s3 = s1 +:+ (s2 +:+ s3).
Proof. induction s1 as [|c s1 IH]; [done | by rewrite !append_cons, IH]. Qed.

Lemma append_eq_nil (s1 s2 : string) : s1 +:+ s2 = "" → s1 = "" ∧ s2 = "".
Proof. destruct s1; [done | discriminate]. Qed.

Lemma append_eq_cons (s1 s2 s : string) (c : ascii) :
  s1 +:+ s2 = String c s →
  (s1 = "" ∧ s2 = String c s) ∨ (∃ s1', s1 = String c s1' ∧ s = s1' +:+ s2).
Proof.
  destruct s1 as [|c1 s1]; intros H; [by left |].
  rewrite append_cons in H. injection H as -> <-. right. by exists s1.
Qed.

(** ** Regular expressions: the matcher decides [Matches] *)

Lemma nullable_Matches (r : Regexp) : nullable r = true ↔ Matches r "".
Proof.
  split.
  - induction r; simpl; intros H; try discriminate.
    + constructor.
    + apply andb_true_iff in H as [H1 H2].
      change "" with ("" +:+ ""). constructor; auto.
    + apply orb_true_iff in H as [H|H]; [apply MAltL | apply MAltR]; auto.
    + constructor.
    + change "" with ("" +:+ ""). constructor; [auto | constructor].
    + constructor.
  - remember "" as s eqn:Hs. intros H. induction H; simpl; try done;
      try (apply append_eq_nil in Hs as [-> ->]).
    + rewrite IHMatches1, IHMatches2; done.
    + rewrite IHMatches; done.
    + rewrite IHMatches, orb_true_r; done.
    + auto.
Qed.

Lemma Matches_concat_inv (r1 r2 : Regexp) (s : string) :
  Matches (OpConcat r1 r2) s → ∃ s1 s2, s = s1 +:+ s2 ∧ Matches r1 s1 ∧ Matches r2 s2.
Proof. inversion 1; subst; eauto. Qed.

Lemma Matches_plus_inv (r : Regexp) (s : string) :
  Matches (OpPlus r) s → ∃ s1 s2, s = s1 +:+ s2 ∧ Matches r s1 ∧ Matches (OpStar r) s2.
Proof. inversion 1; subst; eauto. Qed.

(** A match of [r*] on a string that starts with [c] begins with a
    non-empty match of [r]. *)
Lemma Matches_star_cons (r : Regexp) (c : ascii) (s : string) :
  Matches (OpStar r) (String c s) →
  ∃ s1 s2, s = s1 +:+ s2 ∧ Matches r (String c s1) ∧ Matches (OpStar r) s2.
Proof.
  remember (OpStar r) as r' eqn:Hr. remember (String c s) as s' eqn:Hs.
  intros H. revert Hr Hs. induction H; try discriminate.
  intros [= ->] Hs.
  apply append_eq_cons in Hs as [[-> ->] | (s1' & -> & ->)].
  - by apply IHMatches2.
  - by exists s1', s2.
Qed.

Lemma deriv_Matches (r : Regexp) (c : ascii) (s : string) :
  Matches (deriv c r) s ↔ Matches r (String c s).
Proof.
  revert s. induction r as [| |negated chars| |r1 IH1 r2 IH2|r1 IH1 r2 IH2|r IH|r IH|r IH];
    intros s; simpl.
  - split; inversion 1.
  - split; inversion 1.
  - destruct (in_class negated chars c) eqn:Hc; split; inversion 1; subst.
    + by constructor.
    + constructor.
    + congruence.
  - destruct (any_char_not_nl c) eqn:Hc; split; inversion 1; subst.
    + by constructor.
    + constructor.
    + congruence.
  - split.
    + intros H.
      assert (Matches (OpConcat (deriv c r1) r2) s ∨ (nullable r1 = true ∧ Matches (deriv c r2) s))
        as [H'|[Hn H']].
      { destruct (nullable r1); [| by left]. inversion H; subst; [by left | by right]. }
      * inversion H'; subst. change (Matches (OpConcat r1 r2) (String c s1 +:+ s2)).
        constructor; [by apply IH1 | done].
      * change (Matches (OpConcat r1 r2) ("" +:+ String c s)).
        constructor; [by apply nullable_Matches | by apply IH2].
    + intros H. apply Matches_concat_inv in H as (s1 & s2 & Heq & H1 & H2).
      symmetry in Heq. apply append_eq_cons in Heq as [[-> ->] | (s1' & -> & ->)].
      * apply nullable_Matches in H1 as ->. apply MAltR. by apply IH2.
      * assert (Matches (OpConcat (deriv c r1) r2) (s1' +:+ s2)) as H'.
        { constructor; [by apply IH1 | done]. }
        destruct (nullable r1); [by apply MAltL | done].
  - split.
    + inversion 1; subst; [apply MAltL; by apply IH1 | apply MAltR; by apply IH2].
    + inversion 1; subst; [apply MAltL; by apply IH1 | apply MAltR; by apply IH2].
  - split.
    + inversion 1; subst. change (Matches (OpStar r) (String c s1 +:+ s2)).
      constructor; [by apply IH | done].
    + intros H. apply Matches_star_cons in H as (s1 & s2 & -> & H1 & H2).
      constructor; [by apply IH | done].
  - split.
    + inversion 1; subst. change (Matches (OpPlus r) (String c s1 +:+ s2)).
      constructor; [by apply IH | done].
    + intros H. apply Matches_plus_inv in H as (s1 & s2 & Heq & H1 & H2).
      symmetry in Heq. apply append_eq_cons in Heq as [[-> ->] | (s1' & -> & ->)].
      * apply Matches_star_cons in H2 as (t1 & t2 & -> & Ht1 & Ht2).
        constructor; [by apply IH | done].
      * constructor; [by apply IH | done].
  - split.
    + intros H. apply MQuestSome. by apply IH.
    + inversion 1; subst. by apply IH.
Qed.

Lemma match_prefix_Matches (r : Regexp) (s : string) :
  match_prefix r s = true ↔ ∃ s1 s2, s = s1 +:+ s2 ∧ Matches r s1.
Proof.
  revert r. induction s as [|c s IH]; intros r; simpl.
  - rewrite orb_false_r, nullable_Matches. split.
    + intros H. by exists "", "".
    + intros (s1 & s2 & Heq & H). symmetry in Heq.
      by apply append_eq_nil in Heq as [-> ->].
  - rewrite orb_true_iff, nullable_Matches, IH. split.
    + intros [H | (s1 & s2 & -> & H)].
      * by exists "", (String c s).
      * exists (String c s1), s2. split; [done | by apply deriv_Matches].
    + intros (s1 & s2 & Heq & H). symmetry in Heq.
      apply append_eq_cons in Heq as [[-> ->] | (s1' & -> & ->)]; [by left |].
      right. exists s1', s2. split; [done | by apply deriv_Matches].
Qed.

(** [MatchString] holds exactly when some substring is matched. *)
Lemma MatchString_Matches (r : Regexp) (s : string) :
  MatchString r s = true ↔ ∃ s0 s1 s2, s = s0 +:+ s1 +:+ s2 ∧ Matches r s1.
Proof.
  induction s as [|c s IH]; cbn [MatchString].
  - rewrite orb_false_r, match_prefix_Matches. split.
    + intros (s1 & s2 & Heq & H). by exists "", s1, s2.
    + intros (s0 & s1 & s2 & Heq & H). symmetry in Heq.
      apply append_eq_nil in Heq as [-> Heq]. by exists s1, s2.
  - rewrite orb_true_iff, match_prefix_Matches, IH. split.
    + intros [(s1 & s2 & Heq & H) | (s0 & s1 & s2 & -> & H)].
      * by exists "", s1, s2.
      * by exists (String c s0), s1, s2.
    + intros (s0 & s1 & s2 & Heq & H). destruct s0 as [|c0 s0].
      * left. by exists s1, s2.
      * rewrite append_cons in Heq. injection Heq as <- ->. right. by exists s0, s1, s2.
Qed.

(** ** Field validators *)

Lemma accepts_All (validators : list SchemaValidateFunc) (i : value) (k : string) :
  accepts (All validators) i k = forallb (λ f, accepts f i k) validators.
Proof.
  induction validators as [|f rest IH]; [done |].
  unfold accepts in *. cbn [All forallb].
  destruct (f i k) as [w1 e1], (All rest i k) as [w2 e2]. cbn [snd] in *.
  rewrite <- IH. destruct e1, e2; done.
Qed.

Lemma accepts_StringLenBetween (min max : Z) (v k : string) :
  accepts (StringLenBetween min max) (VString v) k = true ↔ min ≤ len v ≤ max.
Proof.
  unfold accepts, StringLenBetween.
  destruct (len v <? min) eqn:H1, (max <? len v) eqn:H2; cbn [orb snd];
    rewrite bool_decide_eq_true; split; try done; lia.
Qed.

Lemma accepts_StringMatch (r : Regexp) (message v k : string) :
  accepts (StringMatch r message) (VString v) k = MatchString r v.
Proof. unfold accepts, StringMatch. by destruct (MatchString r v). Qed.

Lemma has_char_split (c : ascii) (s : string) :
  has_char c s = true ↔ ∃ s1 s2, s = s1 +:+ String c s2.
Proof.
  induction s as [|c' s IH]; simpl.
  - split; [done |]. intros (s1 & s2 & H). by destruct s1.
  - rewrite orb_true_iff, bool_decide_eq_true, IH. split.
    + intros [-> | (s1 & s2 & ->)]; [by exists "", s | by exists (String c' s1), s2].
    + intros (s1 & s2 & H). destruct s1 as [|c1 s1].
      * injection H as -> ->. by left.
      * rewrite append_cons in H. injection H as -> ->. right. by exists s1, s2.
Qed.

(** The pattern of [budget_name] is found in a string as soon as one of
    its characters is neither a colon nor a backslash. *)
Lemma budget_name_pattern_MatchString (v : string) :
  MatchString budget_name_pattern v = true ↔
  ∃ c, has_char c v = true ∧ c ≠ colon ∧ c ≠ backslash.
Proof.
  rewrite MatchString_Matches. unfold budget_name_pattern. split.
  - intros (s0 & s1 & s2 & -> & H).
    apply Matches_plus_inv in H as (t1 & t2 & -> & H1 & _).
    inversion H1 as [|? ? c Hc| | | | | | | | |]; subst.
    exists c. split.
    + apply has_char_split. exists s0, (t2 +:+ s2).
      by rewrite append_assoc.
    + unfold in_class in Hc. simpl in Hc. apply negb_true_iff in Hc.
      apply bool_decide_eq_false in Hc.
      rewrite !elem_of_cons, elem_of_nil in Hc. tauto.
  - intros (c & Hc & Hcolon & Hback).
    apply has_char_split in Hc as (s1 & s2 & ->).
    exists s1, (String c ""), s2. split; [done |].
    change (String c "") with (String c "" +:+ ""). constructor; [| constructor].
    constructor. unfold in_class. simpl. apply negb_true_iff, bool_decide_eq_false.
    rewrite !elem_of_cons, elem_of_nil. tauto.
Qed.

(** What the validation of [budget_name] accepts: the strings of 1 to 100
    bytes with at least one character other than a colon and a backslash. *)
Lemma budget_name_ValidateFunc_accepts (v k : string) :
  accepts budget_name_ValidateFunc (VString v) k = true ↔
  1 ≤ len v ≤ 100 ∧ ∃ c, has_char c v = true ∧ c ≠ colon ∧ c ≠ backslash.
Proof.
  unfold budget_name_ValidateFunc. rewrite accepts_All. cbn [forallb].
  rewrite andb_true_r, andb_true_iff, accepts_StringLenBetween, accepts_StringMatch.
  by rewrite budget_name_pattern_MatchString.
Qed.

(** The pattern of a subscriber's address is found in every string: it
    matches the empty string. *)
Lemma subscriber_address_pattern_MatchString (v : string) :
  MatchString subscriber_address_pattern v = true.
Proof.
  apply MatchString_Matches. exists "", "", v. split; [done |]. constructor.
Qed.

(** What the validation of a subscriber's address accepts: every string of
    1 to 2147483647 bytes. *)
Lemma subscriber_address_ValidateFunc_accepts (v k : string) :
  accepts subscriber_address_ValidateFunc (VString v) k = true ↔
  1 ≤ len v ≤ 2147483647.
Proof.
  unfold subscriber_address_ValidateFunc. rewrite accepts_All. cbn [forallb].
  rewrite andb_true_r, andb_true_iff, accepts_StringLenBetween, accepts_StringMatch.
  rewrite subscriber_address_pattern_MatchString. tauto.
Qed.

(** C7 (the code departs from the claim). The validation of [budget_name]
    accepts the name [a:b], which contains a colon, and the name made of
    [a], a backslash and [b]: the pattern is not anchored, so one allowed
    character anywhere in the name is enough. The claim, and the message
    of the validator, say that such names are rejected. *)
Theorem budget_name_accepts_colon_and_backslash :
  accepts budget_name_ValidateFunc (VString "a:b") "budget_name" = true
  ∧ has_char colon "a:b" = true
  ∧ accepts budget_name_ValidateFunc (VString (String "a" (String backslash "b")))
      "budget_name" = true
  ∧ has_char backslash (String "a" (String backslash "b")) = true.
Proof. repeat split; vm_compute; reflexivity. Qed.

(** C8 (the code departs from the claim). The validation of a subscriber's
    address accepts an address of two lines: the pattern matches the empty
    string, so it is found in every address. The claim, and the message of
    the validator, say that an address with a line break is rejected. *)
Theorem subscriber_address_accepts_line_break :
  accepts subscriber_address_ValidateFunc
    (VString (String "a" (String newline "b"))) "address" = true
  ∧ has_char newline (String "a" (String newline "b")) = true.
Proof. split; vm_compute; reflexivity. Qed.
(** ** The composite identifier *)

(** Two different triples of components with the same identifier: joining
    the components with the separator does not keep them apart when one
    of them contains it. *)
Lemma BudgetActionCreateResourceID_not_injective :
  BudgetActionCreateResourceID "a/b" "c" "d" = BudgetActionCreateResourceID "a" "b/c" "d".
Proof. reflexivity. Qed.

(** ** Expanders and flatteners *)

Lemma bool_decide_VMap_VNil (m : gmap string value) : bool_decide (VMap m = VNil) = false.
Proof. by apply bool_decide_eq_false. Qed.

Lemma non_empty_string_Some (m : gmap string value) (key v : string) :
  m !! key = Some (VString v) → v ≠ "" → non_empty_string (m !! key) = Some v.
Proof.
  intros -> Hv. unfold non_empty_string. simpl. by rewrite bool_decide_eq_false_2.
Qed.

(** C3. For a one-element list whose map holds a non-empty
    [action_threshold_type] string and an [action_threshold_value] float
    (the two fields of the block), the expander returns a threshold, and
    flattening it gives back the list. *)
Theorem flatten_expand_ActionThreshold (v : string) (f : float64) :
  v ≠ "" →
  let l := [VMap (<["action_threshold_value" := VFloat f]>
                    (<["action_threshold_type" := VString v]> ∅))] in
  ∃ lt, expandAwsBudgetsBudgetActionActionThreshold l = Done lt
        ∧ VMap <$> flattenAwsBudgetsBudgetActionActionThreshold lt = l.
Proof.
  intros Hv l. subst l. eexists. split.
  - unfold expandAwsBudgetsBudgetActionActionThreshold.
    rewrite bool_decide_VMap_VNil. reflexivity.
  - rewrite (non_empty_string_Some _ _ v); [| by simplify_map_eq | done].
    rewrite lookup_insert_eq. reflexivity.
Qed.

(** A threshold of 100 percent. *)
Lemma flatten_expand_ActionThreshold_witness :
  ∃ lt, expandAwsBudgetsBudgetActionActionThreshold
          [VMap (<["action_threshold_value" := VFloat (S754_finite false 25 2)]>
                   (<["action_threshold_type" := VString "PERCENTAGE"]> ∅))] = Done lt
        ∧ VMap <$> flattenAwsBudgetsBudgetActionActionThreshold lt
          = [VMap (<["action_threshold_value" := VFloat (S754_finite false 25 2)]>
                     (<["action_threshold_type" := VString "PERCENTAGE"]> ∅))].
Proof.
  apply (flatten_expand_ActionThreshold "PERCENTAGE" (S754_finite false 25 2)).
  discriminate.
Defined.

(** C9. Every expander of a list of blocks returns [nil], without a
    panic, on the empty list and on a list whose first element is [nil]. *)
Theorem expanders_nil (expandStringSet : list value → slice (option string))
    (rest : list value) :
  expandAwsBudgetsBudgetActionActionThreshold [] = Done None
  ∧ expandAwsBudgetsBudgetActionActionThreshold (VNil :: rest) = Done None
  ∧ expandAwsBudgetsBudgetActionActionDefinition expandStringSet [] = Done None
  ∧ expandAwsBudgetsBudgetActionActionDefinition expandStringSet (VNil :: rest) = Done None
  ∧ expandAwsBudgetsBudgetActionActionScpActionDefinition expandStringSet [] = Done None
  ∧ expandAwsBudgetsBudgetActionActionScpActionDefinition expandStringSet (VNil :: rest)
    = Done None
  ∧ expandAwsBudgetsBudgetActionActionSsmActionDefinition expandStringSet [] = Done None
  ∧ expandAwsBudgetsBudgetActionActionSsmActionDefinition expandStringSet (VNil :: rest)
    = Done None
  ∧ expandAwsBudgetsBudgetActionActionIamActionDefinition expandStringSet [] = Done None
  ∧ expandAwsBudgetsBudgetActionActionIamActionDefinition expandStringSet (VNil :: rest)
    = Done None.
Proof.
  unfold expandAwsBudgetsBudgetActionActionThreshold,
    expandAwsBudgetsBudgetActionActionDefinition,
    expandAwsBudgetsBudgetActionActionScpActionDefinition,
    expandAwsBudgetsBudgetActionActionSsmActionDefinition,
    expandAwsBudgetsBudgetActionActionIamActionDefinition.
  rewrite (bool_decide_eq_true_2 (VNil = VNil)) by done.
  repeat split.
Qed.

(** C10. [flattenAwsBudgetsBudgetActionDefinition] returns the empty list
    exactly for [nil]; for a definition it returns one map, which has the
    key of a branch exactly when the branch is not nil and has no other
    key, so that it is the empty map when all three branches are nil. *)
Theorem flattenAwsBudgetsBudgetActionDefinition_keys
    (flattenStringSet : slice (option string) → list value) :
  (∀ lt, flattenAwsBudgetsBudgetActionDefinition flattenStringSet lt = [] ↔ lt = None)
  ∧ ∀ def,
      ∃ attrs,
        flattenAwsBudgetsBudgetActionDefinition flattenStringSet (Some def) = [attrs]
        ∧ (is_Some (attrs !! "ssm_action_definition")
           ↔ is_Some (Definition_.SsmActionDefinition def))
        ∧ (is_Some (attrs !! "iam_action_definition")
           ↔ is_Some (Definition_.IamActionDefinition def))
        ∧ (is_Some (attrs !! "scp_action_definition")
           ↔ is_Some (Definition_.ScpActionDefinition def))
        ∧ (∀ key, is_Some (attrs !! key) →
             key = "ssm_action_definition" ∨ key = "iam_action_definition"
             ∨ key = "scp_action_definition")
        ∧ (Definition_.SsmActionDefinition def = None →
           Definition_.IamActionDefinition def = None →
           Definition_.ScpActionDefinition def = None → attrs = ∅).
Proof.
  split.
  - intros lt. destruct lt; simpl; split; done.
  - intros def. destruct def as [iam scp ssm]. eexists. split; [reflexivity |].
    cbn [Definition_.SsmActionDefinition Definition_.IamActionDefinition
         Definition_.ScpActionDefinition].
    split; [| split; [| split; [| split]]].
    + destruct ssm, iam, scp; simplify_map_eq; split; try done; try (by intros [? ?]); eauto.
    + destruct ssm, iam, scp; simplify_map_eq; split; try done; try (by intros [? ?]); eauto.
    + destruct ssm, iam, scp; simplify_map_eq; split; try done; try (by intros [? ?]); eauto.
    + intros key [x Hx].
      destruct (decide (key = "ssm_action_definition")) as [|H1]; [by left |].
      destruct (decide (key = "iam_action_definition")) as [|H2]; [by right; left |].
      destruct (decide (key = "scp_action_definition")) as [|H3]; [by right; right |].
      destruct ssm, iam, scp; simplify_map_eq.
    + by intros -> -> ->.
Qed.

(** ** What the expanders return on well-formed values *)

Lemma expandAwsBudgetsBudgetActionActionThreshold_block_list (l : list value) :
  block_list l = true →
  ∃ lt, expandAwsBudgetsBudgetActionActionThreshold l = Done lt ∧ non_nil lt = populated l.
Proof.
  destruct l as [|[| | | | |m] rest]; try discriminate; intros _; eexists; split;
    reflexivity.
Qed.

Section ExpandDefinition.

Variable expandStringSet : list value → slice (option string).

Lemma expandAwsBudgetsBudgetActionActionScpActionDefinition_block_list (l : list value) :
  block_list l = true →
  ∃ lt, expandAwsBudgetsBudgetActionActionScpActionDefinition expandStringSet l = Done lt
        ∧ non_nil lt = populated l.
Proof.
  destruct l as [|[| | | | |m] rest]; try discriminate; intros _; eexists; split;
    reflexivity.
Qed.

Lemma expandAwsBudgetsBudgetActionActionSsmActionDefinition_block_list (l : list value) :
  block_list l = true →
  ∃ lt, expandAwsBudgetsBudgetActionActionSsmActionDefinition expandStringSet l = Done lt
        ∧ non_nil lt = populated l.
Proof.
  destruct l as [|[| | | | |m] rest]; try discriminate; intros _; eexists; split;
    reflexivity.
Qed.

Lemma expandAwsBudgetsBudgetActionActionIamActionDefinition_block_list (l : list value) :
  block_list l = true →
  ∃ lt, expandAwsBudgetsBudgetActionActionIamActionDefinition expandStringSet l = Done lt
        ∧ non_nil lt = populated l.
Proof.
  destruct l as [|[| | | | |m] rest]; try discriminate; intros _; eexists; split;
    reflexivity.
Qed.

(** A branch is expanded when its list is not empty, and then it is not
    nil exactly when the first block of the list is not nil. *)
Lemma non_empty_list_nested {A : Type} (expand : list value → outcome (option A))
    (x : option value) :
  (∀ l, block_list l = true → ∃ lt, expand l = Done lt ∧ non_nil lt = populated l) →
  nested_block_list x = true →
  ∃ lt, non_empty_list expand x = Done lt ∧ non_nil lt = nested_populated x.
Proof.
  intros Hexpand. unfold nested_block_list, non_empty_list, nested_populated.
  destruct (assert_list x) as [v|]; [| by exists None].
  intros Hv. destruct v as [|v0 v]; [by exists None |].
  rewrite bool_decide_eq_true_2 by (simpl; lia). by apply Hexpand.
Qed.

(** The definition built from a block: a branch is not nil exactly when
    its list is populated. *)
Lemma expandAwsBudgetsBudgetActionActionDefinition_map
    (m : gmap string value) (rest : list value) :
  definition_list (VMap m :: rest) = true →
  ∃ ssm scp iam,
    expandAwsBudgetsBudgetActionActionDefinition expandStringSet (VMap m :: rest)
      = Done (Some {| Definition_.SsmActionDefinition := ssm;
                      Definition_.ScpActionDefinition := scp;
                      Definition_.IamActionDefinition := iam |})
    ∧ non_nil ssm = nested_populated (m !! "ssm_action_definition")
    ∧ non_nil scp = nested_populated (m !! "scp_action_definition")
    ∧ non_nil iam = nested_populated (m !! "iam_action_definition").
Proof.
  cbn [definition_list]. intros [[Hssm Hscp]%andb_true_iff Hiam]%andb_true_iff.
  destruct (non_empty_list_nested _ _
    expandAwsBudgetsBudgetActionActionSsmActionDefinition_block_list Hssm) as (ssm & Essm & Nssm).
  destruct (non_empty_list_nested _ _
    expandAwsBudgetsBudgetActionActionScpActionDefinition_block_list Hscp) as (scp & Escp & Nscp).
  destruct (non_empty_list_nested _ _
    expandAwsBudgetsBudgetActionActionIamActionDefinition_block_list Hiam) as (iam & Eiam & Niam).
  exists ssm, scp, iam. split; [| done].
  unfold expandAwsBudgetsBudgetActionActionDefinition.
  rewrite bool_decide_VMap_VNil. cbn [must_map mbind outcome_bind].
  by rewrite Essm, Escp, Eiam.
Qed.

Lemma expandAwsBudgetsBudgetActionActionDefinition_definition_list (l : list value) :
  definition_list l = true →
  ∃ lt, expandAwsBudgetsBudgetActionActionDefinition expandStringSet l = Done lt
        ∧ non_nil lt = populated l.
Proof.
  destruct l as [|[| | | | |m] rest]; try discriminate; intros Hl.
  - by exists None.
  - by exists None.
  - destruct (expandAwsBudgetsBudgetActionActionDefinition_map m rest Hl)
      as (ssm & scp & iam & Hdef & _).
    eexists. split; [exact Hdef | reflexivity].
Qed.

(** C6 (as amended). From a [definition] block the expander builds a
    definition in which a branch is not nil exactly when the list of that
    branch in the block is not empty and starts with a block that is not
    nil. So the definition has as many branches as the block populates,
    and exactly one when the block populates exactly one. *)
Theorem expandAwsBudgetsBudgetActionActionDefinition_branches
    (m : gmap string value) (rest : list value) :
  definition_list (VMap m :: rest) = true →
  ∃ def,
    expandAwsBudgetsBudgetActionActionDefinition expandStringSet (VMap m :: rest)
      = Done (Some def)
    ∧ non_nil (Definition_.SsmActionDefinition def)
      = nested_populated (m !! "ssm_action_definition")
    ∧ non_nil (Definition_.ScpActionDefinition def)
      = nested_populated (m !! "scp_action_definition")
    ∧ non_nil (Definition_.IamActionDefinition def)
      = nested_populated (m !! "iam_action_definition")
    ∧ populated_branches def = configured_branches m
    ∧ (configured_branches m = 1%nat → populated_branches def = 1%nat).
Proof.
  intros Hl.
  destruct (expandAwsBudgetsBudgetActionActionDefinition_map m rest Hl)
    as (ssm & scp & iam & Hdef & Nssm & Nscp & Niam).
  eexists. split; [exact Hdef |]. cbn.
  assert (populated_branches
            {| Definition_.SsmActionDefinition := ssm;
               Definition_.ScpActionDefinition := scp;
               Definition_.IamActionDefinition := iam |} = configured_branches m) as Hcount.
  { unfold populated_branches, configured_branches. simpl. by rewrite Nssm, Nscp, Niam. }
  repeat split; try done. by rewrite Hcount.
Qed.

End ExpandDefinition.

Lemma expandAwsBudgetsBudgetActionSubscriber_loop_maps (elems : list value)
    (items : list (option Subscriber.t)) :
  forallb is_map elems = true →
  ∃ items', expandAwsBudgetsBudgetActionSubscriber_loop elems items = Done items'.
Proof.
  revert items. induction elems as [|[| | | | |m] rest IH]; intros items; try discriminate.
  - by exists items.
  - cbn [forallb is_map andb]. intros Hrest.
    cbn [expandAwsBudgetsBudgetActionSubscriber_loop must_map mbind outcome_bind].
    by apply IH.
Qed.

Lemma expandAwsBudgetsBudgetActionSubscriber_maps (l : list value) :
  forallb is_map l = true →
  ∃ items, expandAwsBudgetsBudgetActionSubscriber l = Done (Some items).
Proof.
  intros Hl. unfold expandAwsBudgetsBudgetActionSubscriber.
  case_bool_decide; [by exists [] |].
  destruct (expandAwsBudgetsBudgetActionSubscriber_loop_maps l [] Hl) as [items ->].
  by exists items.
Qed.

(** The sample block with the SSM branch alone: one branch is expanded. *)
Lemma expandAwsBudgetsBudgetActionActionDefinition_branches_witness :
  ∃ def,
    expandAwsBudgetsBudgetActionActionDefinition sample_expandStringSet sample_definition_ssm
      = Done (Some def)
    ∧ non_nil (Definition_.SsmActionDefinition def) = true
    ∧ non_nil (Definition_.ScpActionDefinition def) = false
    ∧ non_nil (Definition_.IamActionDefinition def) = false
    ∧ populated_branches def = 1%nat.
Proof.
  assert (definition_list (VMap sample_ssm_only :: []) = true) as Hl
    by (vm_compute; reflexivity).
  destruct (expandAwsBudgetsBudgetActionActionDefinition_branches
              sample_expandStringSet sample_ssm_only [] Hl)
    as (def & Hdef & Hssm & Hscp & Hiam & Hcount & _).
  exists def. split; [exact Hdef |].
  rewrite Hssm, Hscp, Hiam, Hcount. vm_compute. repeat split.
Defined.

(** C6 (counterexample to the claim as stated). The schema of
    [definition] accepts a block with both an SSM and an SCP branch, and
    the definition expanded from it has two branches; it also accepts the
    empty block, from which no definition is expanded at all. *)
Lemma definition_schema_accepts_two_branches :
  definition_schema reject_all sample_definition_ssm_scp = true
  ∧ match expandAwsBudgetsBudgetActionActionDefinition sample_expandStringSet
            sample_definition_ssm_scp with
    | Done (Some def) => populated_branches def
    | _ => 0%nat
    end = 2%nat
  ∧ definition_schema reject_all sample_definition_empty = true
  ∧ expandAwsBudgetsBudgetActionActionDefinition sample_expandStringSet
      sample_definition_empty
    = Done None.
Proof. repeat split; vm_compute; reflexivity. Qed.

(** ** Running against the vendor *)

Lemma Run_bind_lift {A B : Type} (a : A) (f : A → Run B) (h : list Call) :
  (lift (Done a) ≫= f) h = f a h.
Proof. reflexivity. Qed.

Lemma Run_bind_call {A B : Type} (c : Call) (answer : list Call → A) (f : A → Run B)
    (h : list Call) :
  (call c answer ≫= f) h = f (answer h) (h ++ [c]).
Proof. reflexivity. Qed.

Lemma only_lookups_ret {A : Type} (a : A) : only_lookups (mret a).
Proof. intros h. exists []. by rewrite app_nil_r. Qed.

Lemma only_lookups_lift {A : Type} (o : outcome A) : only_lookups (lift o).
Proof. intros h. exists []. by rewrite app_nil_r. Qed.

Lemma only_lookups_call {A : Type} (c : Call) (answer : list Call → A) :
  is_lookup c = true → only_lookups (call c answer).
Proof. intros Hc h. exists [c]. simpl. by rewrite Hc. Qed.

Lemma only_lookups_bind {A B : Type} (m : Run A) (f : A → Run B) :
  only_lookups m → (∀ a, only_lookups (f a)) → only_lookups (m ≫= f).
Proof.
  intros Hm Hf h. destruct (Hm h) as (rest1 & H1 & L1).
  unfold mbind, Run_bind. destruct (m h) as [[a|] h1]; simpl in *; subst h1.
  - destruct (Hf a (h ++ rest1)) as (rest2 & H2 & L2). exists (rest1 ++ rest2).
    by rewrite H2, app_assoc, forallb_app, L1, L2.
  - by exists rest1.
Qed.

Lemma only_lookups_Read
    (BudgetActionParseResourceID : string → result (string * string * string))
    (flattenStringSet : slice (option string) → list value)
    (d : ResourceData) (meta : AWSClient) :
  only_lookups (resourceAwsBudgetsBudgetActionRead BudgetActionParseResourceID
                    flattenStringSet d meta).
Proof.
  unfold resourceAwsBudgetsBudgetActionRead.
  destruct (BudgetActionParseResourceID (Id d)) as [[[accountID actionID] budgetName]|err];
    [| apply only_lookups_ret].
  apply only_lookups_bind; [by apply only_lookups_call |]. intros found.
  destruct (negb _ && _); [apply only_lookups_ret |].
  destruct found as [output|err]; [| apply only_lookups_ret].
  destruct (Set_ _ "action_threshold" _) as [d1 [err|]]; [apply only_lookups_ret |].
  destruct (Set_ _ "definition" _) as [d2 [err|]]; [apply only_lookups_ret |].
  apply only_lookups_bind; [apply only_lookups_lift |]. intros subscribers.
  destruct (Set_ _ "subscriber" _) as [d3 [err|]]; apply only_lookups_ret.
Qed.

Lemma app_cons_replicate (h : list Call) (c : Call) (i : nat) :
  h ++ c :: replicate i c = (h ++ [c]) ++ replicate i c.
Proof. by rewrite <- app_assoc. Qed.

(** The retry helper run on a call: the call is made [n + 1] times with
    [n] within the timeout, every answer but the last is an error with
    the named code, and the last answer is returned; it has that code
    only when the timeout is used up. *)
Lemma RetryWhenAwsErrCodeEquals_call {A : Type} (timeout : nat) (c : Call)
    (answer : list Call → result A) (code : string) (h : list Call) :
  ∃ n, (n ≤ timeout)%nat
    ∧ RetryWhenAwsErrCodeEquals timeout (call c answer) code h
      = (Done (answer (h ++ replicate n c)), h ++ replicate (S n) c)
    ∧ (∀ i, (i < n)%nat →
         ∃ err, answer (h ++ replicate i c) = Err err ∧ ErrCodeEquals err code = true)
    ∧ (∀ err, answer (h ++ replicate n c) = Err err →
         ErrCodeEquals err code = false ∨ n = timeout).
Proof.
  revert h. induction timeout as [|timeout IH]; intros h.
  - exists 0%nat. cbn [RetryWhenAwsErrCodeEquals replicate]. rewrite Run_bind_call, app_nil_r.
    repeat split; [lia | | intros; lia | by right].
    destruct (answer h) as [output|err]; [done |]. by destruct (ErrCodeEquals err code).
  - cbn [RetryWhenAwsErrCodeEquals]. rewrite Run_bind_call.
    destruct (answer h) as [output|err] eqn:Hanswer.
    { exists 0%nat. cbn [replicate]. rewrite app_nil_r, Hanswer.
      repeat split; [lia | intros; lia | congruence]. }
    destruct (ErrCodeEquals err code) eqn:Hcode.
    + destruct (IH (h ++ [c])) as (n & Hn & Hrun & Hbefore & Hlast).
      exists (S n). cbn [replicate]. rewrite !app_cons_replicate.
      split; [lia |]. split; [rewrite Hrun; f_equal; cbn [replicate]; by rewrite <- app_assoc |]. split.
      * intros [|i] Hi.
        -- exists err. cbn [replicate]. by rewrite app_nil_r.
        -- destruct (Hbefore i) as (err' & H1 & H2); [lia |]. exists err'.
           cbn [replicate]. by rewrite app_cons_replicate.
      * intros err' Herr'. destruct (Hlast err' Herr') as [Hc|Hn']; [by left | right; by rewrite Hn'].
    + exists 0%nat. cbn [replicate]. rewrite app_nil_r, Hanswer.
      repeat split; [lia | intros; lia |]. intros err' [= <-]. by left.
Qed.

(** ** What [d.HasChange] reports *)






(** Compared with a string, a value is deeply equal exactly when it is
    that string. *)
Lemma DeepEqual_string (x : value) (s : string) :
  DeepEqual x (VString s) = bool_decide (x = VString s).
Proof.
  destruct x as [|s'| | | |]; try done. cbn [DeepEqual].
  apply bool_decide_ext. split; [by intros -> | by intros [= ->]].
Qed.




(** ** The lifecycle functions *)

Section LifecycleProperties.

Variable BudgetActionParseResourceID : string → result (string * string * string).
Variable expandStringSet : list value → slice (option string).
Variable flattenStringSet : slice (option string) → list value.
Variable PropagationTimeout : nat.

(** C2. With an identifier that parses: when the lookup of the action
    fails, read clears the identifier and returns no error if the resource
    is not new and the error is resource-not-found, and otherwise returns
    the error wrapped; when the vendor's delete fails, delete returns no
    error if the code of the error is NotFoundException, and otherwise
    returns the error wrapped. In all cases the resource data is otherwise
    untouched and exactly the one call is made. *)
Theorem Read_Delete_errors (d : ResourceData) (meta : AWSClient) (h : list Call)
    (accountID actionID budgetName : string) :
  BudgetActionParseResourceID (Id d) = Ok (accountID, actionID, budgetName) →
  (∀ err,
     ActionByAccountIDActionIDAndBudgetName (budgetconn meta) h accountID actionID budgetName
       = Err err →
     resourceAwsBudgetsBudgetActionRead BudgetActionParseResourceID flattenStringSet d meta h
     = (Done (if negb (IsNewResource d) && NotFound (Some err)
              then (SetId d "", None)
              else (d, Some (Errorf ("error reading Budget Action (" +:+ Id d +:+ ")") err))),
        h ++ [CallActionByAccountIDActionIDAndBudgetName accountID actionID budgetName]))
  ∧ (∀ err,
       DeleteBudgetAction (budgetconn meta) h
         {| DeleteBudgetActionInput.AccountId := Some accountID;
            DeleteBudgetActionInput.ActionId := Some actionID;
            DeleteBudgetActionInput.BudgetName := Some budgetName |} = Some err →
       resourceAwsBudgetsBudgetActionDelete BudgetActionParseResourceID d meta h
       = (Done (d, if ErrCodeEquals err ErrCodeNotFoundException
                   then None
                   else Some (Errorf ("error deleting Budget Action (" +:+ Id d +:+ ")") err)),
          h ++ [CallDeleteBudgetAction
                  {| DeleteBudgetActionInput.AccountId := Some accountID;
                     DeleteBudgetActionInput.ActionId := Some actionID;
                     DeleteBudgetActionInput.BudgetName := Some budgetName |}])).
Proof.
  intros Hparse. split; intros err Herr.
  - unfold resourceAwsBudgetsBudgetActionRead. rewrite Hparse, Run_bind_call, Herr.
    by destruct (negb (IsNewResource d) && NotFound (Some err)).
  - unfold resourceAwsBudgetsBudgetActionDelete. rewrite Hparse, Run_bind_call, Herr.
    by destruct (ErrCodeEquals err ErrCodeNotFoundException).
Qed.

(** What [well_typed] says field by field. *)
Lemma well_typed_fields (d : ResourceData) :
  well_typed d = true →
  (∃ v, Get d "account_id" = VString v)
  ∧ (∃ l, Get d "action_threshold" = VList l ∧ block_list l = true)
  ∧ (∃ v, Get d "action_type" = VString v)
  ∧ (∃ v, Get d "approval_model" = VString v)
  ∧ (∃ v, Get d "budget_name" = VString v)
  ∧ (∃ l, Get d "definition" = VList l ∧ definition_list l = true)
  ∧ (∃ v, Get d "execution_role_arn" = VString v)
  ∧ (∃ v, Get d "notification_type" = VString v)
  ∧ (∃ l, Get d "subscriber" = VSet l ∧ forallb is_map l = true).
Proof.
  unfold well_typed. rewrite !andb_true_iff.
  intros [[[[[[[[H1 H2] H3] H4] H5] H6] H7] H8] H9].
  repeat split;
    repeat match goal with
    | H : is_string ?x = true |- context [?x] =>
        destruct x; try discriminate H; clear H
    | H : match ?x with _ => _ end = true |- context [?x] =>
        destruct x; try discriminate H
    end; eauto.
Qed.

Lemma lift_if {A : Type} (b : bool) (a : A) :
  (if b then lift (Done (Some a)) else mret None) = lift (Done (if b then Some a else None)).
Proof. by destruct b. Qed.

Lemma lift_if_option {A : Type} (b : bool) (a : option A) :
  (if b then lift (Done a) else mret None) = lift (Done (if b then a else None)).
Proof. by destruct b. Qed.



(** C5. With well-typed data, create calls [CreateBudgetAction] [n + 1]
    times in a row with the same input, where [n], the number of retries,
    is within the propagation timeout. Every answer but the last is an
    error with the code AccessDeniedException: only such an answer leads
    to a retry, so an error with another code ends the attempts at once.
    When the last answer is an error, either its code is not
    AccessDeniedException or the timeout is used up, no other call
    follows, and create returns the error wrapped. After a last answer
    that is not an error, create only looks the action up. *)
Theorem Create_retry (d : ResourceData) (meta : AWSClient) (h : list Call) :
  well_typed d = true →
  ∃ input n out rest,
    resourceAwsBudgetsBudgetActionCreate BudgetActionParseResourceID
        expandStringSet flattenStringSet PropagationTimeout
        d meta h
      = (out, h ++ replicate (S n) (CallCreateBudgetAction input) ++ rest)
    ∧ forallb is_lookup rest = true
    ∧ (n ≤ PropagationTimeout)%nat
    ∧ (∀ i, (i < n)%nat →
         ∃ err, CreateBudgetAction (budgetconn meta)
                  (h ++ replicate i (CallCreateBudgetAction input)) input = Err err
                ∧ ErrCodeEquals err ErrCodeAccessDeniedException = true)
    ∧ (∀ i err, (i ≤ n)%nat →
         CreateBudgetAction (budgetconn meta)
           (h ++ replicate i (CallCreateBudgetAction input)) input = Err err →
         ErrCodeEquals err ErrCodeAccessDeniedException = false → i = n)
    ∧ (∀ err,
         CreateBudgetAction (budgetconn meta)
           (h ++ replicate n (CallCreateBudgetAction input)) input = Err err →
         (ErrCodeEquals err ErrCodeAccessDeniedException = false ∨ n = PropagationTimeout)
         ∧ out = Done (d, Some (Errorf "error creating Budget Action" err))
         ∧ rest = []).
Proof.
  intros Hwt.
  destruct (well_typed_fields d Hwt)
    as ((ac & Gac) & (lt & Gt & Ht) & (at_ & Gat) & (am & Gam) & (bn & Gbn) & (ld & Gd & Hd)
        & (er & Ger) & (nt & Gnt) & (ls & Gs & Hs)).
  destruct (expandAwsBudgetsBudgetActionActionThreshold_block_list lt Ht) as (t & Et & Nt).
  destruct (expandAwsBudgetsBudgetActionActionDefinition_definition_list expandStringSet ld Hd)
    as (def & Ed & Nd).
  destruct (expandAwsBudgetsBudgetActionSubscriber_maps ls Hs) as (items & Es).
  unfold resourceAwsBudgetsBudgetActionCreate.
  rewrite Gac, Gt, Gat, Gam, Gbn, Gd, Ger, Gnt, Gs.
  cbn [must_list must_string must_set mbind outcome_bind].
  rewrite Et, Ed, Es, !Run_bind_lift.
  set (input := CreateBudgetActionInput.mk _ _ _ _ _ _ _ _ _).
  set (c := CallCreateBudgetAction input).
  destruct (RetryWhenAwsErrCodeEquals_call PropagationTimeout c
              (λ h', CreateBudgetAction (budgetconn meta) h' input)
              ErrCodeAccessDeniedException h) as (n & Hn & Hrun & Hbefore & Hlast).
  unfold mbind at 1, Run_bind at 1. rewrite Hrun. cbv beta.
  set (hn := h ++ replicate (S n) c).
  destruct (CreateBudgetAction (budgetconn meta) (h ++ replicate n c) input)
    as [output|err] eqn:Hanswer.
  - match goal with |- context [?tail hn] =>
      assert (∃ rest, (tail hn).2 = hn ++ rest ∧ forallb is_lookup rest = true)
        as (rest & Hrest & Hlookups);
      [| exists input, n, (tail hn).1, rest ]
    end.
    { apply only_lookups_bind; [by apply only_lookups_call |]. intros [available|err];
        [apply only_lookups_Read | apply only_lookups_ret]. }
    split.
    { replace (h ++ replicate (S n) (CallCreateBudgetAction input) ++ rest) with (hn ++ rest)
        by (unfold hn, c; by rewrite app_assoc).
      rewrite <- Hrest. apply surjective_pairing. }
    split; [done |]. split; [done |]. split; [exact Hbefore |]. split.
    + intros i err Hi Herr Hcode. destruct (decide (i = n)) as [|Hne]; [done |].
      destruct (Hbefore i) as (err' & Herr' & Hcode'); [lia |].
      cbv beta in Herr'. unfold c in Herr'. congruence.
    + intros err Herr. unfold c in Hanswer. congruence.
  - exists input, n, (Done (d, Some (Errorf "error creating Budget Action" err))), [].
    split; [by rewrite app_nil_r |]. split; [done |]. split; [done |].
    split; [exact Hbefore |]. split.
    + intros i err' Hi Herr Hcode. destruct (decide (i = n)) as [|Hne]; [done |].
      destruct (Hbefore i) as (err'' & Herr'' & Hcode''); [lia |].
      cbv beta in Herr''. unfold c in Herr''. congruence.
    + intros err' Herr'. unfold c in Hanswer. rewrite Hanswer in Herr'.
      injection Herr' as <-. split; [| done]. by apply Hlast.
Qed.

End LifecycleProperties.

(** The sample action against a vendor that no longer has it: read drops
    it from the state and delete succeeds. *)
Lemma Read_Delete_errors_witness :
  resourceAwsBudgetsBudgetActionRead sample_BudgetActionParseResourceID
      sample_flattenStringSet sample_data
    (sample_meta sample_conn_gone) []
  = (Done (SetId sample_data "", None),
     [CallActionByAccountIDActionIDAndBudgetName "123456789012" "a1b2c3" "monthly"])
  ∧ resourceAwsBudgetsBudgetActionDelete sample_BudgetActionParseResourceID
        sample_data (sample_meta sample_conn_gone) []
    = (Done (sample_data, None),
       [CallDeleteBudgetAction
          {| DeleteBudgetActionInput.AccountId := Some "123456789012";
             DeleteBudgetActionInput.ActionId := Some "a1b2c3";
             DeleteBudgetActionInput.BudgetName := Some "monthly" |}]).
Proof.
  destruct (Read_Delete_errors sample_BudgetActionParseResourceID sample_flattenStringSet
              sample_data
              (sample_meta sample_conn_gone) [] "123456789012" "a1b2c3" "monthly" eq_refl)
    as [HRead HDelete].
  split.
  - exact (HRead (NotFoundError "couldn't find resource") eq_refl).
  - exact (HDelete (AwsError ErrCodeNotFoundException "no such action") eq_refl).
Defined.



(** The sample action against a vendor that denies access twice and then
    rejects the request: three attempts, and the last error is returned. *)
Lemma Create_retry_witness :
  ∃ input,
    resourceAwsBudgetsBudgetActionCreate sample_BudgetActionParseResourceID
        sample_expandStringSet sample_flattenStringSet 5
      sample_data (sample_meta sample_conn_denied) []
    = (Done (sample_data,
             Some (Errorf "error creating Budget Action"
                     (AwsError "InvalidParameterException" "invalid request"))),
       replicate 3 (CallCreateBudgetAction input)).
Proof.
  assert (well_typed sample_data = true) as Hwt by (vm_compute; reflexivity).
  destruct (Create_retry sample_BudgetActionParseResourceID sample_expandStringSet
              sample_flattenStringSet 5 sample_data
              (sample_meta sample_conn_denied) [] Hwt)
    as (input & n & out & rest & Hrun & _ & Hn & Hbefore & Hother & Hlast).
  exists input. rewrite Hrun. clear Hrun.
  assert (n = 2%nat) as ->.
  { symmetry. apply (Hother 2%nat (AwsError "InvalidParameterException" "invalid request")).
    - destruct n as [|[|n]]; [| | lia].
      + destruct (Hlast (AwsError ErrCodeAccessDeniedException "role not yet usable") eq_refl)
          as [[Hcode|Htimeout] _]; discriminate.
      + destruct (Hlast (AwsError ErrCodeAccessDeniedException "role not yet usable") eq_refl)
          as [[Hcode|Htimeout] _]; discriminate.
    - reflexivity.
    - reflexivity. }
  destruct (Hlast (AwsError "InvalidParameterException" "invalid request") eq_refl)
    as (_ & -> & ->).
  reflexivity.
Defined.

(** * Further properties of the resource *)

(** ** Field validators *)

(** X1. The validation of [budget_name] accepts exactly the strings of 1
    to 100 bytes that have at least one character other than a colon and
    a backslash; a value that is no string is rejected. *)
Theorem budget_name_ValidateFunc_accepted (i : value) (k : string) :
  accepts budget_name_ValidateFunc i k = true ↔
  ∃ v, i = VString v ∧ 1 ≤ len v ≤ 100
       ∧ ∃ c, has_char c v = true ∧ c ≠ colon ∧ c ≠ backslash.
Proof.
  split.
  - destruct i as [|v| | | |]; try (intros H; vm_compute in H; discriminate H).
    intros H. exists v. split; [done |]. by apply (budget_name_ValidateFunc_accepts v k).
  - intros (v & -> & H). by apply budget_name_ValidateFunc_accepts.
Qed.

(** X2. The validation of a subscriber's [address] accepts exactly the
    strings of 1 to 2147483647 bytes, whatever characters they contain; a
    value that is no string is rejected. *)
Theorem subscriber_address_ValidateFunc_accepted (i : value) (k : string) :
  accepts subscriber_address_ValidateFunc i k = true ↔
  ∃ v, i = VString v ∧ 1 ≤ len v ≤ 2147483647.
Proof.
  split.
  - destruct i as [|v| | | |]; try (intros H; vm_compute in H; discriminate H).
    intros H. exists v. split; [done |]. by apply (subscriber_address_ValidateFunc_accepts v k).
  - intros (v & -> & H). by apply subscriber_address_ValidateFunc_accepts.
Qed.

(** ** Subscribers *)

(** The struct that the expander builds from the configuration of a
    subscriber, and the map that the flattener builds from a struct. *)
Lemma expandAwsBudgetsBudgetActionSubscriber_loop_app (elems : list value)
    (items : list (option Subscriber.t)) :
  forallb is_map elems = true →
  ∃ new, expandAwsBudgetsBudgetActionSubscriber_loop elems items = Done (items ++ new)
         ∧ length new = length elems
         ∧ forallb non_nil new = true.
Proof.
  revert items. induction elems as [|[| | | | |m] rest IH]; intros items; try discriminate.
  - intros _. exists []. by rewrite app_nil_r.
  - cbn [forallb is_map andb]. intros Hrest.
    cbn [expandAwsBudgetsBudgetActionSubscriber_loop must_map mbind outcome_bind].
    destruct (IH (items ++ [Some {|
      Subscriber.Address := non_empty_string (m !! "address");
      Subscriber.SubscriptionType := assert_string (m !! "subscription_type") |}]) Hrest)
      as (new & Hrun & Hlen & Hsome).
    eexists (_ :: new). rewrite Hrun, <- app_assoc.
    split; [reflexivity |]. split; [simpl; by rewrite Hlen | exact Hsome].
Qed.

Lemma expandAwsBudgetsBudgetActionSubscriber_loop_panic (elems : list value)
    (items : list (option Subscriber.t)) :
  forallb is_map elems = false →
  expandAwsBudgetsBudgetActionSubscriber_loop elems items = Panic.
Proof.
  revert items. induction elems as [|x rest IH]; intros items; [discriminate |].
  destruct x; try reflexivity.
  cbn [forallb is_map andb]. intros Hrest.
  cbn [expandAwsBudgetsBudgetActionSubscriber_loop must_map mbind outcome_bind].
  by apply IH.
Qed.

(** X3. [expandAwsBudgetsBudgetActionSubscriber] returns a slice that is
    never nil, with one struct, itself not nil, for every element of the
    set, and the empty slice for the empty set; it panics exactly when an
    element of the set is no map. *)
Theorem expandAwsBudgetsBudgetActionSubscriber_total (l : list value) :
  (forallb is_map l = true →
   ∃ items, expandAwsBudgetsBudgetActionSubscriber l = Done (Some items)
            ∧ length items = length l
            ∧ forallb non_nil items = true)
  ∧ (forallb is_map l = false → expandAwsBudgetsBudgetActionSubscriber l = Panic).
Proof.
  unfold expandAwsBudgetsBudgetActionSubscriber. split; intros Hl.
  - case_bool_decide as Hlen.
    + exists []. by destruct l.
    + destruct (expandAwsBudgetsBudgetActionSubscriber_loop_app l [] Hl)
        as (new & -> & Hnew & Hsome).
      by exists new.
  - case_bool_decide as Hlen; [by destruct l |].
    by rewrite expandAwsBudgetsBudgetActionSubscriber_loop_panic.
Qed.

Lemma flattenAwsBudgetsBudgetActionSubscriber_loop_app
    (configured : list (option Subscriber.t)) (dataResources : list (gmap string value)) :
  forallb non_nil configured = true →
  ∃ new, flattenAwsBudgetsBudgetActionSubscriber_loop configured dataResources
           = Done (dataResources ++ new)
         ∧ length new = length configured
         ∧ Forall (λ item, ∃ address subscription_type,
                     item = subscriber_config address subscription_type) new.
Proof.
  revert dataResources. induction configured as [|[raw|] rest IH]; intros dataResources;
    try discriminate.
  - intros _. exists []. by rewrite app_nil_r.
  - cbn [forallb non_nil andb]. intros Hrest.
    cbn [flattenAwsBudgetsBudgetActionSubscriber_loop].
    destruct (IH (dataResources ++ [subscriber_config
                    (StringValue (Subscriber.Address raw))
                    (StringValue (Subscriber.SubscriptionType raw))]) Hrest)
      as (new & Hrun & Hlen & Hshape).
    eexists (_ :: new). unfold subscriber_config in Hrun. rewrite Hrun, <- app_assoc.
    split; [reflexivity |]. split; [simpl; by rewrite Hlen |].
    constructor; [by eexists _, _ | done].
Qed.

Lemma flattenAwsBudgetsBudgetActionSubscriber_loop_panic
    (configured : list (option Subscriber.t)) (dataResources : list (gmap string value)) :
  forallb non_nil configured = false →
  flattenAwsBudgetsBudgetActionSubscriber_loop configured dataResources = Panic.
Proof.
  revert dataResources. induction configured as [|[raw|] rest IH]; intros dataResources;
    [discriminate | | reflexivity].
  cbn [forallb non_nil andb]. intros Hrest.
  cbn [flattenAwsBudgetsBudgetActionSubscriber_loop]. by apply IH.
Qed.

(** X4. [flattenAwsBudgetsBudgetActionSubscriber] returns one map for
    every subscriber, each with exactly the two string fields [address]
    and [subscription_type], and the empty list for a nil or empty slice;
    it panics exactly when an element of the slice is nil. *)
Theorem flattenAwsBudgetsBudgetActionSubscriber_total
    (configured : slice (option Subscriber.t)) :
  (forallb non_nil (default [] configured) = true →
   ∃ dataResources,
     flattenAwsBudgetsBudgetActionSubscriber configured = Done dataResources
     ∧ length dataResources = slice_len configured
     ∧ Forall (λ item, ∃ address subscription_type,
                 item = subscriber_config address subscription_type) dataResources)
  ∧ (forallb non_nil (default [] configured) = false →
     flattenAwsBudgetsBudgetActionSubscriber configured = Panic).
Proof.
  unfold flattenAwsBudgetsBudgetActionSubscriber. split; intros Hc.
  - destruct (flattenAwsBudgetsBudgetActionSubscriber_loop_app _ [] Hc)
      as (new & -> & Hlen & Hshape).
    exists new. split; [done |]. split; [| done]. by destruct configured.
  - by apply flattenAwsBudgetsBudgetActionSubscriber_loop_panic.
Qed.

Lemma subscriber_config_address (address subscription_type : string) :
  subscriber_config address subscription_type !! "address" = Some (VString address).
Proof. unfold subscriber_config. by simplify_map_eq. Qed.

Lemma subscriber_config_subscription_type (address subscription_type : string) :
  subscriber_config address subscription_type !! "subscription_type"
  = Some (VString subscription_type).
Proof. unfold subscriber_config. by simplify_map_eq. Qed.

Lemma StringValue_non_empty_string (m : gmap string value) (key v : string) :
  m !! key = Some (VString v) → StringValue (non_empty_string (m !! key)) = v.
Proof.
  intros ->. unfold non_empty_string. simpl. by case_bool_decide.
Qed.

Lemma expandAwsBudgetsBudgetActionSubscriber_loop_configs (subs : list (string * string))
    (items : list (option Subscriber.t)) :
  ∃ new,
    expandAwsBudgetsBudgetActionSubscriber_loop
      ((λ sub, VMap (subscriber_config sub.1 sub.2)) <$> subs) items = Done (items ++ new)
    ∧ ∀ dataResources,
        flattenAwsBudgetsBudgetActionSubscriber_loop new dataResources
        = Done (dataResources ++ ((λ sub, subscriber_config sub.1 sub.2) <$> subs)).
Proof.
  revert items. induction subs as [|[address subscription_type] subs IH]; intros items.
  - exists []. split; [by rewrite app_nil_r |]. intros dataResources. by rewrite app_nil_r.
  - cbn [fmap list_fmap fst snd].
    cbn [expandAwsBudgetsBudgetActionSubscriber_loop must_map mbind outcome_bind].
    destruct (IH (items ++ [Some {|
      Subscriber.Address :=
        non_empty_string (subscriber_config address subscription_type !! "address");
      Subscriber.SubscriptionType :=
        assert_string (subscriber_config address subscription_type !! "subscription_type")
      |}])) as (new & Hrun & Hback).
    eexists (_ :: new). split; [by rewrite Hrun, <- app_assoc |].
    intros dataResources. cbn [flattenAwsBudgetsBudgetActionSubscriber_loop Subscriber.Address
      Subscriber.SubscriptionType].
    rewrite Hback, <- app_assoc.
    rewrite (StringValue_non_empty_string _ _ address)
      by apply subscriber_config_address.
    by rewrite subscriber_config_subscription_type.
Qed.

(** X5. A set of subscribers, each a map with an [address] string and a
    [subscription_type] string, is expanded without a panic, and
    flattening the result gives the maps back, in the same order. *)
Theorem flatten_expand_Subscriber (subs : list (string * string)) :
  ∃ items,
    expandAwsBudgetsBudgetActionSubscriber
      ((λ sub, VMap (subscriber_config sub.1 sub.2)) <$> subs) = Done (Some items)
    ∧ flattenAwsBudgetsBudgetActionSubscriber (Some items)
      = Done ((λ sub, subscriber_config sub.1 sub.2) <$> subs).
Proof.
  unfold expandAwsBudgetsBudgetActionSubscriber, flattenAwsBudgetsBudgetActionSubscriber.
  case_bool_decide as Hlen.
  - destruct subs; [| discriminate]. by exists [].
  - destruct (expandAwsBudgetsBudgetActionSubscriber_loop_configs subs [])
      as (new & -> & Hback).
    exists new. split; [done |]. apply (Hback []).
Qed.

Lemma flattenAwsBudgetsBudgetActionSubscriber_loop_structs (items : list Subscriber.t)
    (dataResources : list (gmap string value)) :
  Forall (λ raw, Subscriber.Address raw ≠ Some ""
                 ∧ Subscriber.SubscriptionType raw ≠ None) items →
  ∃ new,
    flattenAwsBudgetsBudgetActionSubscriber_loop (Some <$> items) dataResources
    = Done (dataResources ++ new)
    ∧ length new = length items
    ∧ ∀ acc, expandAwsBudgetsBudgetActionSubscriber_loop (VMap <$> new) acc
             = Done (acc ++ (Some <$> items)).
Proof.
  intros Hitems. revert dataResources.
  induction Hitems as [|raw items [Haddress Htype] _ IH]; intros dataResources.
  - exists []. split; [by rewrite app_nil_r |]. split; [done |].
    intros acc. by rewrite app_nil_r.
  - cbn [fmap list_fmap flattenAwsBudgetsBudgetActionSubscriber_loop].
    destruct (IH (dataResources ++ [subscriber_config
                    (StringValue (Subscriber.Address raw))
                    (StringValue (Subscriber.SubscriptionType raw))]))
      as (new & Hrun & Hlen & Hback).
    eexists (_ :: new). unfold subscriber_config in Hrun at 1. rewrite Hrun, <- app_assoc.
    split; [reflexivity |]. split; [simpl; by rewrite Hlen |].
    intros acc. cbn [fmap list_fmap expandAwsBudgetsBudgetActionSubscriber_loop must_map
      mbind outcome_bind].
    fold (subscriber_config (StringValue (Subscriber.Address raw))
            (StringValue (Subscriber.SubscriptionType raw))).
    rewrite subscriber_config_address, subscriber_config_subscription_type.
    rewrite Hback, <- app_assoc. do 2 f_equal. cbn [app]. f_equal. f_equal.
    destruct raw as [[address|] [subscription_type|]]; simpl in *; try done.
    all: unfold non_empty_string; simpl; case_bool_decide; congruence.
Qed.

(** X6. Subscribers as the vendor reports them, each with a subscription
    type and with an address that is nil or not empty, are flattened
    without a panic, and expanding the result gives the same subscribers
    back: what read stores is what update sends. *)
Theorem expand_flatten_Subscriber (items : list Subscriber.t) :
  Forall (λ raw, Subscriber.Address raw ≠ Some ""
                 ∧ Subscriber.SubscriptionType raw ≠ None) items →
  ∃ dataResources,
    flattenAwsBudgetsBudgetActionSubscriber (Some (Some <$> items)) = Done dataResources
    ∧ expandAwsBudgetsBudgetActionSubscriber (VMap <$> dataResources)
      = Done (Some (Some <$> items)).
Proof.
  intros Hitems.
  unfold expandAwsBudgetsBudgetActionSubscriber, flattenAwsBudgetsBudgetActionSubscriber.
  destruct (flattenAwsBudgetsBudgetActionSubscriber_loop_structs items [] Hitems)
    as (new & Hrun & Hlen & Hback).
  exists new. split; [exact Hrun |].
  case_bool_decide as Hnil.
  - rewrite length_fmap, Hlen in Hnil. by destruct items.
  - by rewrite (Hback []).
Qed.

(** The subscriber of the sample action. *)
Lemma expand_flatten_Subscriber_witness :
  ∃ dataResources,
    flattenAwsBudgetsBudgetActionSubscriber (Action.Subscribers sample_action)
      = Done dataResources
    ∧ expandAwsBudgetsBudgetActionSubscriber (VMap <$> dataResources)
      = Done (Action.Subscribers sample_action).
Proof.
  apply (expand_flatten_Subscriber
           [{| Subscriber.Address := Some "ops@example.com";
               Subscriber.SubscriptionType := Some "EMAIL" |}]).
  repeat constructor; discriminate.
Defined.

(** ** Thresholds and the shapes the expanders accept *)

(** X7. A threshold as the vendor reports it, with a value and with a
    type that is nil or not empty, is flattened to one map, and expanding
    that map gives the same threshold back. *)
Theorem expand_flatten_ActionThreshold (lt : ActionThreshold.t) :
  ActionThreshold.ActionThresholdType lt ≠ Some "" →
  ActionThreshold.ActionThresholdValue lt ≠ None →
  expandAwsBudgetsBudgetActionActionThreshold
    (VMap <$> flattenAwsBudgetsBudgetActionActionThreshold (Some lt)) = Done (Some lt).
Proof.
  destruct lt as [type [value|]]; [| done]. intros Htype _.
  cbn [flattenAwsBudgetsBudgetActionActionThreshold fmap list_fmap
       ActionThreshold.ActionThresholdType ActionThreshold.ActionThresholdValue].
  unfold expandAwsBudgetsBudgetActionActionThreshold.
  rewrite bool_decide_VMap_VNil. cbn [must_map mbind outcome_bind mret outcome_ret].
  do 2 f_equal. rewrite lookup_insert_eq, lookup_insert_ne, lookup_insert_eq by done.
  cbn [assert_float64 Float64Value default]. f_equal.
  unfold non_empty_string. simpl. destruct type as [type|]; simpl in *.
  - case_bool_decide; congruence.
  - done.
Qed.

(** The threshold of the sample action. *)
Lemma expand_flatten_ActionThreshold_witness :
  expandAwsBudgetsBudgetActionActionThreshold
    (VMap <$> flattenAwsBudgetsBudgetActionActionThreshold
                (Action.ActionThreshold sample_action))
  = Done (Action.ActionThreshold sample_action).
Proof.
  apply (expand_flatten_ActionThreshold
           {| ActionThreshold.ActionThresholdType := Some "PERCENTAGE";
              ActionThreshold.ActionThresholdValue := Some (S754_finite false 25 2) |});
    discriminate.
Defined.

Lemma block_list_false (l : list value) :
  block_list l = false → ∃ l0 rest, l = l0 :: rest ∧ l0 ≠ VNil ∧ must_map l0 = Panic.
Proof.
  destruct l as [|l0 rest]; [discriminate |]. intros Hl. exists l0, rest.
  by destruct l0.
Qed.

Section ExpandersPanic.

Variable expandStringSet : list value → slice (option string).

Lemma non_empty_list_panic {A : Type} (expand : list value → outcome (option A))
    (x : option value) :
  (∀ l, block_list l = false → expand l = Panic) →
  nested_block_list x = false → non_empty_list expand x = Panic.
Proof.
  intros Hexpand. unfold nested_block_list, non_empty_list.
  destruct (assert_list x) as [v|]; [| discriminate].
  intros Hv. destruct v as [|v0 v]; [discriminate |].
  rewrite bool_decide_eq_true_2 by (simpl; lia). by apply Hexpand.
Qed.

Lemma expandAwsBudgetsBudgetActionActionScpActionDefinition_panic (l : list value) :
  block_list l = false →
  expandAwsBudgetsBudgetActionActionScpActionDefinition expandStringSet l = Panic.
Proof.
  intros (l0 & rest & -> & Hnil & Hmap)%block_list_false.
  unfold expandAwsBudgetsBudgetActionActionScpActionDefinition.
  by rewrite bool_decide_eq_false_2, Hmap.
Qed.

Lemma expandAwsBudgetsBudgetActionActionSsmActionDefinition_panic (l : list value) :
  block_list l = false →
  expandAwsBudgetsBudgetActionActionSsmActionDefinition expandStringSet l = Panic.
Proof.
  intros (l0 & rest & -> & Hnil & Hmap)%block_list_false.
  unfold expandAwsBudgetsBudgetActionActionSsmActionDefinition.
  by rewrite bool_decide_eq_false_2, Hmap.
Qed.

Lemma expandAwsBudgetsBudgetActionActionIamActionDefinition_panic (l : list value) :
  block_list l = false →
  expandAwsBudgetsBudgetActionActionIamActionDefinition expandStringSet l = Panic.
Proof.
  intros (l0 & rest & -> & Hnil & Hmap)%block_list_false.
  unfold expandAwsBudgetsBudgetActionActionIamActionDefinition.
  by rewrite bool_decide_eq_false_2, Hmap.
Qed.

(** X8. The expanders of a list of blocks panic exactly when the list
    starts with a value that is neither nil nor a map; the expander of a
    definition panics, besides, exactly when the list of one of its
    three branches starts with such a value. On every other input they
    return. *)
Theorem expanders_panic (l : list value) :
  (expandAwsBudgetsBudgetActionActionThreshold l = Panic ↔ block_list l = false)
  ∧ (expandAwsBudgetsBudgetActionActionScpActionDefinition expandStringSet l = Panic
     ↔ block_list l = false)
  ∧ (expandAwsBudgetsBudgetActionActionSsmActionDefinition expandStringSet l = Panic
     ↔ block_list l = false)
  ∧ (expandAwsBudgetsBudgetActionActionIamActionDefinition expandStringSet l = Panic
     ↔ block_list l = false)
  ∧ (expandAwsBudgetsBudgetActionActionDefinition expandStringSet l = Panic
     ↔ definition_list l = false).
Proof.
  assert (∀ {A} (f : list value → outcome (option A)) (shape : list value → bool),
            (∀ l, shape l = true → ∃ lt, f l = Done lt ∧ non_nil lt = populated l) →
            (∀ l, shape l = false → f l = Panic) →
            f l = Panic ↔ shape l = false) as Hiff.
  { intros A f shape Hdone Hpanic. split; [| apply Hpanic].
    destruct (shape l) eqn:Hl; [| done].
    destruct (Hdone l Hl) as (lt & -> & _). discriminate. }
  split; [| split; [| split; [| split]]]; apply Hiff; clear Hiff.
  - apply expandAwsBudgetsBudgetActionActionThreshold_block_list.
  - intros l' (l0 & rest & -> & Hnil & Hmap)%block_list_false.
    unfold expandAwsBudgetsBudgetActionActionThreshold.
    by rewrite bool_decide_eq_false_2, Hmap.
  - apply expandAwsBudgetsBudgetActionActionScpActionDefinition_block_list.
  - apply expandAwsBudgetsBudgetActionActionScpActionDefinition_panic.
  - apply expandAwsBudgetsBudgetActionActionSsmActionDefinition_block_list.
  - apply expandAwsBudgetsBudgetActionActionSsmActionDefinition_panic.
  - apply expandAwsBudgetsBudgetActionActionIamActionDefinition_block_list.
  - apply expandAwsBudgetsBudgetActionActionIamActionDefinition_panic.
  - apply expandAwsBudgetsBudgetActionActionDefinition_definition_list.
  - clear l. intros l Hl. destruct l as [|l0 rest]; [discriminate |].
    unfold expandAwsBudgetsBudgetActionActionDefinition.
    destruct l0 as [| | | | |m]; try discriminate; try reflexivity.
    rewrite bool_decide_VMap_VNil. cbn [must_map mbind outcome_bind].
    cbn [definition_list] in Hl.
    destruct (nested_block_list (m !! "ssm_action_definition")) eqn:Hssm.
    + destruct (non_empty_list_nested _ _
        (expandAwsBudgetsBudgetActionActionSsmActionDefinition_block_list expandStringSet)
        Hssm) as (ssm & -> & _).
      destruct (nested_block_list (m !! "scp_action_definition")) eqn:Hscp.
      * destruct (non_empty_list_nested _ _
          (expandAwsBudgetsBudgetActionActionScpActionDefinition_block_list expandStringSet)
          Hscp) as (scp & -> & _).
        simpl in Hl.
        by rewrite (non_empty_list_panic _ _
          expandAwsBudgetsBudgetActionActionIamActionDefinition_panic Hl).
      * by rewrite (non_empty_list_panic _ _
          expandAwsBudgetsBudgetActionActionScpActionDefinition_panic Hscp).
    + by rewrite (non_empty_list_panic _ _
        expandAwsBudgetsBudgetActionActionSsmActionDefinition_panic Hssm).
Qed.

End ExpandersPanic.

(** ** The branches of a definition *)

Section Branches.

Variable expandStringSet : list value → slice (option string).
Variable flattenStringSet : slice (option string) → list value.

Lemma set_if_non_empty_lookup (key key' : string) (s : slice (option string))
    (attrs : gmap string value) :
  set_if_non_empty flattenStringSet key s attrs !! key'
  = if bool_decide (key' = key) && bool_decide (0 < slice_len s)%nat
    then Some (VSet (flattenStringSet s))
    else attrs !! key'.
Proof.
  unfold set_if_non_empty.
  destruct s as [l|]; repeat case_bool_decide; cbn [andb slice_len] in *; subst;
    try done; try lia; try (by rewrite lookup_insert_eq);
    try (by rewrite lookup_insert_ne); exfalso; naive_solver.
Qed.

(** X9. [flattenAwsBudgetsBudgetActionIamActionDefinition] returns the
    empty list exactly for nil. For a definition it returns one map: it
    always has the policy ARN (the empty string for nil), it has the
    users, the roles and the groups exactly when their slice is not
    empty, and it has no other key. *)
Theorem flattenAwsBudgetsBudgetActionIamActionDefinition_keys :
  (∀ lt, flattenAwsBudgetsBudgetActionIamActionDefinition flattenStringSet lt = []
         ↔ lt = None)
  ∧ ∀ iam,
      ∃ attrs,
        flattenAwsBudgetsBudgetActionIamActionDefinition flattenStringSet (Some iam)
          = [attrs]
        ∧ attrs !! "policy_arn"
          = Some (VString (StringValue (IamActionDefinition.PolicyArn iam)))
        ∧ attrs !! "users"
          = (if bool_decide (0 < slice_len (IamActionDefinition.Users iam))%nat
             then Some (VSet (flattenStringSet (IamActionDefinition.Users iam))) else None)
        ∧ attrs !! "roles"
          = (if bool_decide (0 < slice_len (IamActionDefinition.Roles iam))%nat
             then Some (VSet (flattenStringSet (IamActionDefinition.Roles iam))) else None)
        ∧ attrs !! "groups"
          = (if bool_decide (0 < slice_len (IamActionDefinition.Groups iam))%nat
             then Some (VSet (flattenStringSet (IamActionDefinition.Groups iam))) else None)
        ∧ ∀ key, key ≠ "policy_arn" → key ≠ "users" → key ≠ "roles" → key ≠ "groups" →
                 attrs !! key = None.
Proof.
  split.
  - intros [iam|]; simpl; split; done.
  - intros iam. eexists. split; [reflexivity |].
    repeat split; intros; rewrite !set_if_non_empty_lookup;
      repeat (rewrite bool_decide_eq_false_2 by done; cbn [andb]);
      repeat (rewrite (bool_decide_eq_true_2 (_ = _)) by done; cbn [andb]);
      try done; by simplify_map_eq.
Qed.

(** X10. [flattenAwsBudgetsBudgetActionScpActionDefinition] returns one
    map with the policy ID always and the target IDs exactly when their
    slice is not empty. [flattenAwsBudgetsBudgetActionSsmActionDefinition]
    returns one map that always has all three of the action sub type, the
    instance IDs and the region, even when the slice of instance IDs is
    nil. Both return the empty list exactly for nil. *)
Theorem flattenAwsBudgetsBudgetActionScpSsmActionDefinition_keys :
  (∀ lt, flattenAwsBudgetsBudgetActionScpActionDefinition flattenStringSet lt = []
         ↔ lt = None)
  ∧ (∀ lt, flattenAwsBudgetsBudgetActionSsmActionDefinition flattenStringSet lt = []
           ↔ lt = None)
  ∧ (∀ scp,
       ∃ attrs,
         flattenAwsBudgetsBudgetActionScpActionDefinition flattenStringSet (Some scp)
           = [attrs]
         ∧ attrs !! "policy_id"
           = Some (VString (StringValue (ScpActionDefinition.PolicyId scp)))
         ∧ attrs !! "target_ids"
           = (if bool_decide (0 < slice_len (ScpActionDefinition.TargetIds scp))%nat
              then Some (VSet (flattenStringSet (ScpActionDefinition.TargetIds scp)))
              else None)
         ∧ ∀ key, key ≠ "policy_id" → key ≠ "target_ids" → attrs !! key = None)
  ∧ (∀ ssm,
       ∃ attrs,
         flattenAwsBudgetsBudgetActionSsmActionDefinition flattenStringSet (Some ssm)
           = [attrs]
         ∧ attrs !! "action_sub_type"
           = Some (VString (StringValue (SsmActionDefinition.ActionSubType ssm)))
         ∧ attrs !! "instance_ids"
           = Some (VSet (flattenStringSet (SsmActionDefinition.InstanceIds ssm)))
         ∧ attrs !! "region"
           = Some (VString (StringValue (SsmActionDefinition.Region ssm)))
         ∧ ∀ key, key ≠ "action_sub_type" → key ≠ "instance_ids" → key ≠ "region" →
                  attrs !! key = None).
Proof.
  split; [intros [scp|]; simpl; split; done |].
  split; [intros [ssm|]; simpl; split; done |].
  split.
  - intros scp. eexists. split; [reflexivity |].
    repeat split; intros; rewrite !set_if_non_empty_lookup;
      repeat (rewrite bool_decide_eq_false_2 by done; cbn [andb]);
      repeat (rewrite (bool_decide_eq_true_2 (_ = _)) by done; cbn [andb]);
      try done; by simplify_map_eq.
  - intros ssm. eexists. split; [reflexivity |].
    repeat split; intros; by simplify_map_eq.
Qed.

(** A set of strings that the two helpers carry there and back: it is
    not empty, it expands to a slice that is not empty, and flattening
    that slice gives the set. *)
Lemma set_if_non_empty_round_trip (key : string) (ids : list value)
    (attrs : gmap string value) :
  (0 < length ids)%nat →
  (0 < slice_len (expandStringSet ids))%nat →
  flattenStringSet (expandStringSet ids) = ids →
  set_if_non_empty flattenStringSet key
    (non_empty_string_set expandStringSet (<[key := VSet ids]> attrs !! key)) attrs
  = <[key := VSet ids]> attrs.
Proof.
  intros Hids Hlen Hback. rewrite lookup_insert_eq.
  unfold non_empty_string_set, set_if_non_empty. cbn [assert_set].
  rewrite (bool_decide_eq_true_2 (0 < length ids)%nat) by done.
  rewrite (bool_decide_eq_true_2 (0 < slice_len _)%nat) by done.
  rewrite bool_decide_eq_true_2, Hback; [done |].
  destruct (expandStringSet ids); [done | simpl in Hlen; lia].
Qed.

(** X11. An SCP block with a policy ID that is not empty and a set of
    target IDs that the two set helpers carry there and back is expanded
    to a definition, and flattening it gives the block back. *)
Theorem flatten_expand_ScpActionDefinition (policy_id : string) (target_ids : list value) :
  policy_id ≠ "" →
  (0 < length target_ids)%nat →
  (0 < slice_len (expandStringSet target_ids))%nat →
  flattenStringSet (expandStringSet target_ids) = target_ids →
  let m : gmap string value :=
    <["target_ids" := VSet target_ids]> {[ "policy_id" := VString policy_id ]} in
  ∃ lt,
    expandAwsBudgetsBudgetActionActionScpActionDefinition expandStringSet [VMap m] = Done lt
    ∧ VMap <$> flattenAwsBudgetsBudgetActionScpActionDefinition flattenStringSet lt
      = [VMap m].
Proof.
  intros Hp Hids Hlen Hback m. eexists. split.
  - unfold expandAwsBudgetsBudgetActionActionScpActionDefinition.
    rewrite bool_decide_VMap_VNil. reflexivity.
  - cbn [flattenAwsBudgetsBudgetActionScpActionDefinition fmap list_fmap
         ScpActionDefinition.PolicyId ScpActionDefinition.TargetIds].
    rewrite (StringValue_non_empty_string m "policy_id" policy_id)
      by (subst m; by simplify_map_eq).
    subst m. by rewrite set_if_non_empty_round_trip.
Qed.

(** X12. An SSM block with an action sub type and a region that are not
    empty and a set of instance IDs that is not empty and that the two
    set helpers carry there and back is expanded to a definition, and
    flattening it gives the block back. *)
Theorem flatten_expand_SsmActionDefinition (action_sub_type region : string)
    (instance_ids : list value) :
  action_sub_type ≠ "" →
  region ≠ "" →
  (0 < length instance_ids)%nat →
  flattenStringSet (expandStringSet instance_ids) = instance_ids →
  let m : gmap string value :=
    <["region" := VString region]>
      (<["instance_ids" := VSet instance_ids]>
         (<["action_sub_type" := VString action_sub_type]> ∅)) in
  ∃ lt,
    expandAwsBudgetsBudgetActionActionSsmActionDefinition expandStringSet [VMap m] = Done lt
    ∧ VMap <$> flattenAwsBudgetsBudgetActionSsmActionDefinition flattenStringSet lt
      = [VMap m].
Proof.
  intros Ha Hr Hids Hback m. eexists. split.
  - unfold expandAwsBudgetsBudgetActionActionSsmActionDefinition.
    rewrite bool_decide_VMap_VNil. reflexivity.
  - cbn [flattenAwsBudgetsBudgetActionSsmActionDefinition fmap list_fmap
         SsmActionDefinition.ActionSubType SsmActionDefinition.InstanceIds
         SsmActionDefinition.Region].
    rewrite (StringValue_non_empty_string m "action_sub_type" action_sub_type)
      by (subst m; by simplify_map_eq).
    rewrite (StringValue_non_empty_string m "region" region)
      by (subst m; by simplify_map_eq).
    unfold non_empty_string_set.
    replace (m !! "instance_ids") with (Some (VSet instance_ids))
      by (subst m; by simplify_map_eq).
    cbn [assert_set]. rewrite bool_decide_eq_true_2 by done. by rewrite Hback.
Qed.

(** X13. Expanding a definition block and flattening the result keeps the
    keys of exactly the branches that the block populates: the key of a
    branch whose list is empty, or starts with nil, is not in the map
    that comes back. *)
Theorem flatten_expand_Definition_keys (m : gmap string value) (rest : list value) :
  definition_list (VMap m :: rest) = true →
  ∃ def attrs,
    expandAwsBudgetsBudgetActionActionDefinition expandStringSet (VMap m :: rest)
      = Done (Some def)
    ∧ flattenAwsBudgetsBudgetActionDefinition flattenStringSet (Some def) = [attrs]
    ∧ non_nil (attrs !! "ssm_action_definition")
      = nested_populated (m !! "ssm_action_definition")
    ∧ non_nil (attrs !! "scp_action_definition")
      = nested_populated (m !! "scp_action_definition")
    ∧ non_nil (attrs !! "iam_action_definition")
      = nested_populated (m !! "iam_action_definition")
    ∧ ∀ key, key ≠ "ssm_action_definition" → key ≠ "scp_action_definition" →
             key ≠ "iam_action_definition" → attrs !! key = None.
Proof.
  intros Hl.
  destruct (expandAwsBudgetsBudgetActionActionDefinition_map expandStringSet m rest Hl)
    as (ssm & scp & iam & Hdef & Nssm & Nscp & Niam).
  eexists _, _. split; [exact Hdef |]. split; [reflexivity |].
  rewrite <- Nssm, <- Nscp, <- Niam.
  cbn [Definition_.SsmActionDefinition Definition_.IamActionDefinition
       Definition_.ScpActionDefinition].
  repeat split; intros; destruct ssm, scp, iam; by simplify_map_eq.
Qed.

End Branches.

(** The SCP block of the samples. *)
Lemma flatten_expand_ScpActionDefinition_witness :
  ∃ lt,
    expandAwsBudgetsBudgetActionActionScpActionDefinition sample_expandStringSet
      [VMap (<["target_ids" := VSet [VString "ou-abcd-12345678"]]>
               {[ "policy_id" := VString "p-12345678" ]})] = Done lt
    ∧ VMap <$> flattenAwsBudgetsBudgetActionScpActionDefinition sample_flattenStringSet lt
      = [VMap (<["target_ids" := VSet [VString "ou-abcd-12345678"]]>
                 {[ "policy_id" := VString "p-12345678" ]})].
Proof.
  apply (flatten_expand_ScpActionDefinition sample_expandStringSet sample_flattenStringSet
           "p-12345678" [VString "ou-abcd-12345678"]);
    [discriminate | simpl; lia | simpl; lia | reflexivity].
Defined.

(** The SSM block of the samples. *)
Lemma flatten_expand_SsmActionDefinition_witness :
  ∃ lt,
    expandAwsBudgetsBudgetActionActionSsmActionDefinition sample_expandStringSet
      [VMap (<["region" := VString "eu-west-1"]>
               (<["instance_ids" := VSet [VString "i-0123456789abcdef0"]]>
                  (<["action_sub_type" := VString "STOP_EC2_INSTANCES"]> ∅)))] = Done lt
    ∧ VMap <$> flattenAwsBudgetsBudgetActionSsmActionDefinition sample_flattenStringSet lt
      = [VMap (<["region" := VString "eu-west-1"]>
                 (<["instance_ids" := VSet [VString "i-0123456789abcdef0"]]>
                    (<["action_sub_type" := VString "STOP_EC2_INSTANCES"]> ∅)))].
Proof.
  apply (flatten_expand_SsmActionDefinition sample_expandStringSet sample_flattenStringSet
           "STOP_EC2_INSTANCES" "eu-west-1" [VString "i-0123456789abcdef0"]);
    [discriminate | discriminate | simpl; lia | reflexivity].
Defined.

(** The sample block with the SSM branch alone: only its key comes back. *)
Lemma flatten_expand_Definition_keys_witness :
  ∃ def attrs,
    expandAwsBudgetsBudgetActionActionDefinition sample_expandStringSet
      sample_definition_ssm = Done (Some def)
    ∧ flattenAwsBudgetsBudgetActionDefinition sample_flattenStringSet (Some def) = [attrs]
    ∧ non_nil (attrs !! "ssm_action_definition") = true
    ∧ non_nil (attrs !! "scp_action_definition") = false
    ∧ non_nil (attrs !! "iam_action_definition") = false.
Proof.
  assert (definition_list (VMap sample_ssm_only :: []) = true) as Hl
    by (vm_compute; reflexivity).
  destruct (flatten_expand_Definition_keys sample_expandStringSet sample_flattenStringSet
              sample_ssm_only [] Hl)
    as (def & attrs & Hdef & Hattrs & Hssm & Hscp & Hiam & _).
  exists def, attrs. split; [exact Hdef |]. split; [exact Hattrs |].
  rewrite Hssm, Hscp, Hiam. vm_compute. repeat split.
Defined.

Section IamRoundTrip.

Variable expandStringSet : list value → slice (option string).
Variable flattenStringSet : slice (option string) → list value.

(** What the expander reads for an optional set of an IAM block, and what
    the flattener writes back for it. *)
Lemma set_if_non_empty_optional (key : string) (ids : option (list value))
    (attrs : gmap string value) :
  from_option (λ ids, (0 < length ids)%nat
                      ∧ (0 < slice_len (expandStringSet ids))%nat
                      ∧ flattenStringSet (expandStringSet ids) = ids) True ids →
  set_if_non_empty flattenStringSet key
    (non_empty_string_set expandStringSet (VSet <$> ids)) attrs
  = from_option (λ ids, <[key := VSet ids]>) id ids attrs.
Proof.
  destruct ids as [ids|]; simpl.
  - intros (Hids & Hlen & Hback).
    pose proof (set_if_non_empty_round_trip expandStringSet flattenStringSet key ids attrs
                  Hids Hlen Hback) as H.
    by rewrite lookup_insert_eq in H.
  - intros _. unfold set_if_non_empty. by rewrite andb_false_r.
Qed.

(** X14. An IAM block with a policy ARN that is not empty, in which each
    of the sets of users, roles and groups is either absent or carried
    there and back by the two set helpers, is expanded to a definition,
    and flattening it gives the block back. *)
Theorem flatten_expand_IamActionDefinition (policy_arn : string)
    (users roles groups : option (list value)) :
  policy_arn ≠ "" →
  Forall (from_option (λ ids, (0 < length ids)%nat
                              ∧ (0 < slice_len (expandStringSet ids))%nat
                              ∧ flattenStringSet (expandStringSet ids) = ids) True)
    [users; roles; groups] →
  let m : gmap string value :=
    from_option (λ ids, <["groups" := VSet ids]>) id groups
      (from_option (λ ids, <["roles" := VSet ids]>) id roles
         (from_option (λ ids, <["users" := VSet ids]>) id users
            {[ "policy_arn" := VString policy_arn ]})) in
  ∃ lt,
    expandAwsBudgetsBudgetActionActionIamActionDefinition expandStringSet [VMap m] = Done lt
    ∧ VMap <$> flattenAwsBudgetsBudgetActionIamActionDefinition flattenStringSet lt
      = [VMap m].
Proof.
  intros Hp Hsets m.
  apply Forall_cons in Hsets as [Husers Hsets].
  apply Forall_cons in Hsets as [Hroles Hsets].
  apply Forall_cons in Hsets as [Hgroups _].
  eexists. split.
  - unfold expandAwsBudgetsBudgetActionActionIamActionDefinition.
    rewrite bool_decide_VMap_VNil. reflexivity.
  - cbn [flattenAwsBudgetsBudgetActionIamActionDefinition fmap list_fmap
         IamActionDefinition.PolicyArn IamActionDefinition.Users
         IamActionDefinition.Roles IamActionDefinition.Groups].
    assert (m !! "policy_arn" = Some (VString policy_arn)) as Hpolicy
      by (subst m; destruct users, roles, groups; by simplify_map_eq).
    assert (m !! "users" = VSet <$> users) as ->
      by (subst m; destruct users, roles, groups; by simplify_map_eq).
    assert (m !! "roles" = VSet <$> roles) as ->
      by (subst m; destruct users, roles, groups; by simplify_map_eq).
    assert (m !! "groups" = VSet <$> groups) as ->
      by (subst m; destruct users, roles, groups; by simplify_map_eq).
    rewrite (StringValue_non_empty_string m "policy_arn" policy_arn Hpolicy).
    by rewrite !set_if_non_empty_optional.
Qed.

End IamRoundTrip.

(** An IAM block with a policy and one role. *)
Lemma flatten_expand_IamActionDefinition_witness :
  ∃ lt,
    expandAwsBudgetsBudgetActionActionIamActionDefinition sample_expandStringSet
      [VMap (<["roles" := VSet [VString "budget-role"]]>
               {[ "policy_arn" := VString "arn:aws:iam::123456789012:policy/deny" ]})]
      = Done lt
    ∧ VMap <$> flattenAwsBudgetsBudgetActionIamActionDefinition sample_flattenStringSet lt
      = [VMap (<["roles" := VSet [VString "budget-role"]]>
                 {[ "policy_arn" := VString "arn:aws:iam::123456789012:policy/deny" ]})].
Proof.
  apply (flatten_expand_IamActionDefinition sample_expandStringSet sample_flattenStringSet
           "arn:aws:iam::123456789012:policy/deny" None (Some [VString "budget-role"]) None).
  - discriminate.
  - repeat constructor; simpl; lia.
Defined.

(** ** The lifecycle functions, continued *)

Lemma same_resource_refl (d : ResourceData) : same_resource d d.
Proof. by repeat split. Qed.

Lemma same_resource_Set_ (d0 d : ResourceData) (key : string) (v : value) :
  same_resource d0 d → same_resource d0 (Set_ d key v).1.
Proof.
  intros (H1 & H2 & H3). unfold Set_.
  destruct (schemaTypes !! key) as [t|]; [destruct (has_type t v) |]; by repeat split.
Qed.

(** A value of the type of a field of the schema is written. *)
Lemma Set__ok (d : ResourceData) (key : string) (t : ValueType) (v : value) :
  schemaTypes !! key = Some t → has_type t v = true →
  Set_ d key v
  = ({| Id := Id d; IsNewResource := IsNewResource d; prior := prior d;
        attrs := <[key := v]> (attrs d) |}, None).
Proof. intros Hkey Hv. unfold Set_. by rewrite Hkey, Hv. Qed.

Section LifecycleMore.

Variable BudgetActionParseResourceID : string → result (string * string * string).
Variable expandStringSet : list value → slice (option string).
Variable flattenStringSet : slice (option string) → list value.
Variable PropagationTimeout : nat.

(** X15. When the identifier of the resource does not parse, read, update
    and delete return the error of the parser as it is, leave the
    resource data untouched and make no call to the vendor. *)
Theorem parse_error_no_call (d : ResourceData) (meta : AWSClient) (h : list Call)
    (err : error) :
  BudgetActionParseResourceID (Id d) = Err err →
  resourceAwsBudgetsBudgetActionRead BudgetActionParseResourceID
      flattenStringSet d meta h = (Done (d, Some err), h)
  ∧ resourceAwsBudgetsBudgetActionUpdate BudgetActionParseResourceID
        expandStringSet flattenStringSet d meta h
    = (Done (d, Some err), h)
  ∧ resourceAwsBudgetsBudgetActionDelete BudgetActionParseResourceID
        d meta h = (Done (d, Some err), h).
Proof.
  intros Hparse.
  unfold resourceAwsBudgetsBudgetActionRead, resourceAwsBudgetsBudgetActionUpdate,
    resourceAwsBudgetsBudgetActionDelete.
  by rewrite Hparse.
Qed.

(** X16. When the identifier parses, the lookup finds the action and no
    subscriber of the action is nil, read returns no error and writes
    every field of the schema: the account ID, the action ID and the
    budget name from the identifier, the ARN built from them and the
    provider's partition and account, and the other fields from the
    action as the flatteners give them. None of the writes fails, and
    nothing but the fields of the schema is written. *)
Theorem Read_refreshes (d : ResourceData) (meta : AWSClient) (h : list Call)
    (accountID actionID budgetName : string) (output : Action.t) :
  BudgetActionParseResourceID (Id d) = Ok (accountID, actionID, budgetName) →
  ActionByAccountIDActionIDAndBudgetName (budgetconn meta) h accountID actionID budgetName
    = Ok output →
  forallb non_nil (default [] (Action.Subscribers output)) = true →
  ∃ d' subscribers,
    resourceAwsBudgetsBudgetActionRead BudgetActionParseResourceID flattenStringSet d meta h
      = (Done (d', None),
         h ++ [CallActionByAccountIDActionIDAndBudgetName accountID actionID budgetName])
    ∧ flattenAwsBudgetsBudgetActionSubscriber (Action.Subscribers output)
      = Done subscribers
    ∧ same_resource d d'
    ∧ Get d' "account_id" = VString accountID
    ∧ Get d' "action_id" = VString actionID
    ∧ Get d' "action_threshold"
      = maps_value (flattenAwsBudgetsBudgetActionActionThreshold
                      (Action.ActionThreshold output))
    ∧ Get d' "action_type" = VString (StringValue (Action.ActionType output))
    ∧ Get d' "approval_model" = VString (StringValue (Action.ApprovalModel output))
    ∧ Get d' "budget_name" = VString budgetName
    ∧ Get d' "definition"
      = maps_value (flattenAwsBudgetsBudgetActionDefinition flattenStringSet
                      (Action.Definition_ output))
    ∧ Get d' "execution_role_arn"
      = VString (StringValue (Action.ExecutionRoleArn output))
    ∧ Get d' "notification_type"
      = VString (StringValue (Action.NotificationType output))
    ∧ Get d' "status" = VString (StringValue (Action.Status output))
    ∧ Get d' "subscriber" = VSet (VMap <$> subscribers)
    ∧ Get d' "arn"
      = VString (arn_String (partition meta) "budgets" "" (accountid meta)
                   ("budget/" +:+ budgetName +:+ "/action/" +:+ actionID))
    ∧ ∀ key, schemaTypes !! key = None → attrs d' !! key = attrs d !! key.
Proof.
  intros Hparse Hfound Hsubscribers.
  destruct (flattenAwsBudgetsBudgetActionSubscriber_loop_app _ [] Hsubscribers)
    as (subscribers & Hsubs & _).
  change (flattenAwsBudgetsBudgetActionSubscriber_loop _ [])
    with (flattenAwsBudgetsBudgetActionSubscriber (Action.Subscribers output)) in Hsubs.
  cbn [app] in Hsubs.
  unfold resourceAwsBudgetsBudgetActionRead.
  rewrite Hparse, Run_bind_call, Hfound.
  replace (negb (IsNewResource d) && NotFound None) with false by by rewrite andb_false_r.
  rewrite (Set__ok _ "account_id" TypeString) by (vm_compute; reflexivity).
  cbn [fst Id IsNewResource prior attrs].
  rewrite (Set__ok _ "action_id" TypeString) by (vm_compute; reflexivity).
  cbn [fst Id IsNewResource prior attrs].
  rewrite (Set__ok _ "action_threshold" TypeList) by (vm_compute; reflexivity).
  cbn [fst Id IsNewResource prior attrs].
  rewrite (Set__ok _ "action_type" TypeString) by (vm_compute; reflexivity).
  cbn [fst Id IsNewResource prior attrs].
  rewrite (Set__ok _ "approval_model" TypeString) by (vm_compute; reflexivity).
  cbn [fst Id IsNewResource prior attrs].
  rewrite (Set__ok _ "budget_name" TypeString) by (vm_compute; reflexivity).
  cbn [fst Id IsNewResource prior attrs].
  rewrite (Set__ok _ "definition" TypeList) by (vm_compute; reflexivity).
  cbn [fst Id IsNewResource prior attrs].
  rewrite (Set__ok _ "execution_role_arn" TypeString) by (vm_compute; reflexivity).
  cbn [fst Id IsNewResource prior attrs].
  rewrite (Set__ok _ "notification_type" TypeString) by (vm_compute; reflexivity).
  cbn [fst Id IsNewResource prior attrs].
  rewrite (Set__ok _ "status" TypeString) by (vm_compute; reflexivity).
  cbn [fst Id IsNewResource prior attrs].
  rewrite Hsubs, Run_bind_lift.
  rewrite (Set__ok _ "subscriber" TypeSet) by (vm_compute; reflexivity).
  cbn [fst Id IsNewResource prior attrs].
  rewrite (Set__ok _ "arn" TypeString) by (vm_compute; reflexivity).
  cbn [fst Id IsNewResource prior attrs].
  eexists _, subscribers. split; [reflexivity |]. split; [done |].
  split; [by repeat split |].
  unfold Get, read_attr. cbn [attrs].
  repeat split; try by simplify_map_eq.
  intros key Hkey.
  rewrite !lookup_insert_ne; [done | | | | | | | | | | | |];
    intros <-; vm_compute in Hkey; discriminate Hkey.
Qed.

(** X17. When the identifier parses, read makes exactly one call, the
    lookup of the action with the components of the identifier, whether it
    then returns or panics. When it returns, the resource data it gives
    back differ from the ones it was given in the attribute values at
    most, except that the identifier is cleared when an existing resource
    is found to be gone. *)
Theorem Read_frame (d : ResourceData) (meta : AWSClient) (h : list Call)
    (accountID actionID budgetName : string) :
  BudgetActionParseResourceID (Id d) = Ok (accountID, actionID, budgetName) →
  (resourceAwsBudgetsBudgetActionRead BudgetActionParseResourceID flattenStringSet d meta h).2
    = h ++ [CallActionByAccountIDActionIDAndBudgetName accountID actionID budgetName]
  ∧ ∀ d' err,
      (resourceAwsBudgetsBudgetActionRead BudgetActionParseResourceID
           flattenStringSet d meta h).1 = Done (d', err) →
      same_resource d d'
      ∨ (d' = SetId d "" ∧ err = None ∧ IsNewResource d = false).
Proof.
  intros Hparse. unfold resourceAwsBudgetsBudgetActionRead.
  rewrite Hparse, Run_bind_call.
  destruct (ActionByAccountIDActionIDAndBudgetName _ _ _ _ _) as [output|err0].
  - replace (negb (IsNewResource d) && NotFound None) with false by by rewrite andb_false_r.
    pose proof (same_resource_refl d) as H0.
    repeat match goal with
    | H : same_resource ?d0 ?dk |- context [Set_ ?dk ?key ?v] =>
        let H' := fresh "H" in
        pose proof (same_resource_Set_ d0 dk key v H) as H';
        destruct (Set_ dk key v) as [? [?|]]; cbn [fst snd] in *; clear H
    end;
    try (split; [reflexivity | intros d' err [= <- <-]; by left]).
    all: destruct (flattenAwsBudgetsBudgetActionSubscriber _) as [subscribers|];
      [rewrite Run_bind_lift | split; [reflexivity | discriminate]].
    all: repeat match goal with
    | H : same_resource ?d0 ?dk |- context [Set_ ?dk ?key ?v] =>
        let H' := fresh "H" in
        pose proof (same_resource_Set_ d0 dk key v H) as H';
        destruct (Set_ dk key v) as [? [?|]]; cbn [fst snd] in *; clear H
    end.
    all: split; [reflexivity | intros d' err [= <- <-]; by left].
  - destruct (negb (IsNewResource d) && NotFound (Some err0)) eqn:Hgone.
    + split; [reflexivity |]. intros d' err [= <- <-]. right.
      apply andb_true_iff in Hgone as [Hnew _]. apply negb_true_iff in Hnew. done.
    + split; [reflexivity |]. intros d' err [= <- <-]. left. apply same_resource_refl.
Qed.

(** X18. When the identifier parses, delete makes exactly one call, the
    vendor's delete with the components of the identifier, and leaves the
    resource data untouched. It returns no error exactly when the vendor
    returns none or returns one with the code NotFoundException. *)
Theorem Delete_outcome (d : ResourceData) (meta : AWSClient) (h : list Call)
    (accountID actionID budgetName : string) :
  BudgetActionParseResourceID (Id d) = Ok (accountID, actionID, budgetName) →
  let input := {| DeleteBudgetActionInput.AccountId := Some accountID;
                  DeleteBudgetActionInput.ActionId := Some actionID;
                  DeleteBudgetActionInput.BudgetName := Some budgetName |} in
  ∃ err,
    resourceAwsBudgetsBudgetActionDelete BudgetActionParseResourceID d meta h
      = (Done (d, err), h ++ [CallDeleteBudgetAction input])
    ∧ (err = None ↔
       from_option (λ err0, ErrCodeEquals err0 ErrCodeNotFoundException = true) True
         (DeleteBudgetAction (budgetconn meta) h input)).
Proof.
  intros Hparse input. unfold resourceAwsBudgetsBudgetActionDelete.
  rewrite Hparse, Run_bind_call. fold input.
  destruct (DeleteBudgetAction (budgetconn meta) h input) as [err0|]; simpl.
  - destruct (ErrCodeEquals err0 ErrCodeNotFoundException); eexists; split;
      try reflexivity; split; done.
  - eexists; split; [reflexivity |]. done.
Qed.

(** X19. With an identifier that parses and well-typed data, what update
    does after its request: when the vendor refuses the request, update
    returns the error wrapped and makes no further call; when the action
    does not become available, it returns the error of the waiter
    wrapped; otherwise it ends as a read of the resource does. In the
    first two cases the resource data are untouched. *)
Theorem Update_completion (d : ResourceData) (meta : AWSClient) (h : list Call)
    (accountID actionID budgetName : string) :
  BudgetActionParseResourceID (Id d) = Ok (accountID, actionID, budgetName) →
  well_typed d = true →
  ∃ input,
    let h1 := h ++ [CallUpdateBudgetAction input] in
    let h2 := h1 ++ [CallActionAvailable accountID actionID budgetName] in
    (∀ err, UpdateBudgetAction (budgetconn meta) h input = Some err →
       resourceAwsBudgetsBudgetActionUpdate BudgetActionParseResourceID
           expandStringSet flattenStringSet d meta h
       = (Done (d, Some (Errorf ("error updating Budget Action (" +:+ Id d +:+ ")") err)),
          h1))
    ∧ (UpdateBudgetAction (budgetconn meta) h input = None →
       (∀ err, ActionAvailable (budgetconn meta) h1 accountID actionID budgetName = Err err →
          resourceAwsBudgetsBudgetActionUpdate BudgetActionParseResourceID
              expandStringSet flattenStringSet d meta h
          = (Done (d, Some (Errorf ("error waiting for Budget Action (" +:+ Id d
                                      +:+ ") to update") err)), h2))
       ∧ (∀ action,
            ActionAvailable (budgetconn meta) h1 accountID actionID budgetName = Ok action →
            resourceAwsBudgetsBudgetActionUpdate BudgetActionParseResourceID
                expandStringSet flattenStringSet d meta h
            = resourceAwsBudgetsBudgetActionRead BudgetActionParseResourceID
                  flattenStringSet d meta h2)).
Proof.
  intros Hparse Hwt.
  destruct (well_typed_fields d Hwt)
    as (_ & (lt & Gt & Ht) & _ & (am & Gam) & _ & (ld & Gd & Hd) & (er & Ger) & (nt & Gnt)
        & (ls & Gs & Hs)).
  destruct (expandAwsBudgetsBudgetActionActionThreshold_block_list lt Ht) as (t & Et & Nt).
  destruct (expandAwsBudgetsBudgetActionActionDefinition_definition_list expandStringSet ld Hd)
    as (def & Ed & Nd).
  destruct (expandAwsBudgetsBudgetActionSubscriber_maps ls Hs) as (items & Es).
  unfold resourceAwsBudgetsBudgetActionUpdate. rewrite Hparse, Gt, Gam, Gd, Ger, Gnt, Gs.
  cbn [must_list must_string must_set mbind outcome_bind fmap outcome_fmap].
  rewrite Et, Ed, Es, !lift_if, !lift_if_option.
  rewrite !Run_bind_lift, Run_bind_call.
  set (input := UpdateBudgetActionInput.mk _ _ _ _ _ _ _ _ _).
  exists input. cbv zeta. split.
  - by intros err ->.
  - intros ->. rewrite Run_bind_call. split.
    + by intros err ->.
    + by intros action ->.
Qed.

(** After [n] attempts that are refused with the named code, within the
    timeout, an attempt that the vendor answers ends the retries with that
    answer. *)
Lemma RetryWhenAwsErrCodeEquals_answered {A : Type} (timeout : nat) (c : Call)
    (answer : list Call → result A) (code : string) (h : list Call) (n : nat) (a : A) :
  (n ≤ timeout)%nat →
  (∀ i, (i < n)%nat →
     ∃ err, answer (h ++ replicate i c) = Err err ∧ ErrCodeEquals err code = true) →
  answer (h ++ replicate n c) = Ok a →
  RetryWhenAwsErrCodeEquals timeout (call c answer) code h
  = (Done (Ok a), h ++ replicate (S n) c).
Proof.
  intros Hn Hrefused Hanswer.
  destruct (RetryWhenAwsErrCodeEquals_call timeout c answer code h)
    as (n' & Hn' & Hrun & Hbefore & Hlast).
  assert (n' = n) as ->.
  { destruct (lt_eq_lt_dec n' n) as [[Hlt|Heq]|Hgt]; [| done |].
    - destruct (Hrefused n' Hlt) as (err & Herr & Hcode).
      destruct (Hlast err Herr) as [Hc|Ht]; [congruence | lia].
    - destruct (Hbefore n Hgt) as (err & Herr & _). congruence. }
  by rewrite Hrun, Hanswer.
Qed.

(** X20. With well-typed data, create sends the request built from the
    configuration: the configured account ID, or the provider's when none
    is configured, the strings of the four other string fields, and what
    the expanders make of the threshold, the definition and the
    subscribers. When the vendor refuses the request [n] times with the
    code AccessDeniedException, within the timeout, and then creates the
    action, the identifier is set from the account ID of the request and
    from the action ID and the budget name that the vendor returns, and
    create waits for the action: when that fails it returns the error of
    the waiter wrapped, with the identifier set; otherwise it ends as a
    read of the resource with the new identifier does. *)
Theorem Create_completion (d : ResourceData) (meta : AWSClient) (h : list Call) :
  well_typed d = true →
  ∃ configured lt actionType approvalModel name ld executionRoleArn notificationType ls
      actionThreshold definition subscribers,
    Get d "account_id" = VString configured
    ∧ Get d "action_threshold" = VList lt
    ∧ Get d "action_type" = VString actionType
    ∧ Get d "approval_model" = VString approvalModel
    ∧ Get d "budget_name" = VString name
    ∧ Get d "definition" = VList ld
    ∧ Get d "execution_role_arn" = VString executionRoleArn
    ∧ Get d "notification_type" = VString notificationType
    ∧ Get d "subscriber" = VSet ls
    ∧ expandAwsBudgetsBudgetActionActionThreshold lt = Done actionThreshold
    ∧ expandAwsBudgetsBudgetActionActionDefinition expandStringSet ld = Done definition
    ∧ expandAwsBudgetsBudgetActionSubscriber ls = Done subscribers
    ∧ let accountID := if bool_decide (configured = "") then accountid meta else configured in
      let input := {|
        CreateBudgetActionInput.AccountId := Some accountID;
        CreateBudgetActionInput.ActionThreshold := actionThreshold;
        CreateBudgetActionInput.ActionType := Some actionType;
        CreateBudgetActionInput.ApprovalModel := Some approvalModel;
        CreateBudgetActionInput.BudgetName := Some name;
        CreateBudgetActionInput.Definition_ := definition;
        CreateBudgetActionInput.ExecutionRoleArn := Some executionRoleArn;
        CreateBudgetActionInput.NotificationType := Some notificationType;
        CreateBudgetActionInput.Subscribers := subscribers |} in
      ∀ n output,
        (n ≤ PropagationTimeout)%nat →
        (∀ i, (i < n)%nat →
           ∃ err, CreateBudgetAction (budgetconn meta)
                    (h ++ replicate i (CallCreateBudgetAction input)) input = Err err
                  ∧ ErrCodeEquals err ErrCodeAccessDeniedException = true) →
        CreateBudgetAction (budgetconn meta)
          (h ++ replicate n (CallCreateBudgetAction input)) input = Ok output →
        let actionID := StringValue (CreateBudgetActionOutput.ActionId output) in
        let budgetName := StringValue (CreateBudgetActionOutput.BudgetName output) in
        let d1 := SetId d (BudgetActionCreateResourceID accountID actionID budgetName) in
        let h1 := h ++ replicate (S n) (CallCreateBudgetAction input) in
        let h2 := h1 ++ [CallActionAvailable accountID actionID budgetName] in
        (∀ err,
           ActionAvailable (budgetconn meta) h1 accountID actionID budgetName = Err err →
           resourceAwsBudgetsBudgetActionCreate BudgetActionParseResourceID expandStringSet
             flattenStringSet PropagationTimeout d meta h
           = (Done (d1, Some (Errorf ("error waiting for Budget Action (" +:+ Id d1
                                        +:+ ") to create") err)), h2))
        ∧ (∀ action,
             ActionAvailable (budgetconn meta) h1 accountID actionID budgetName = Ok action →
             resourceAwsBudgetsBudgetActionCreate BudgetActionParseResourceID expandStringSet
               flattenStringSet PropagationTimeout d meta h
             = resourceAwsBudgetsBudgetActionRead BudgetActionParseResourceID flattenStringSet
                 d1 meta h2).
Proof.
  intros Hwt.
  destruct (well_typed_fields d Hwt)
    as ((ac & Gac) & (lt & Gt & Ht) & (at_ & Gat) & (am & Gam) & (bn & Gbn) & (ld & Gd & Hd)
        & (er & Ger) & (nt & Gnt) & (ls & Gs & Hs)).
  destruct (expandAwsBudgetsBudgetActionActionThreshold_block_list lt Ht) as (t & Et & Nt).
  destruct (expandAwsBudgetsBudgetActionActionDefinition_definition_list expandStringSet ld Hd)
    as (def & Ed & Nd).
  destruct (expandAwsBudgetsBudgetActionSubscriber_maps ls Hs) as (items & Es).
  exists ac, lt, at_, am, bn, ld, er, nt, ls, t, def, (Some items).
  do 12 (split; [done |]).
  intros accountID input n output Hn Hrefused Hcreated actionID budgetName d1 h1 h2.
  unfold resourceAwsBudgetsBudgetActionCreate.
  rewrite Gac, Gt, Gat, Gam, Gbn, Gd, Ger, Gnt, Gs.
  cbn [must_list must_string must_set mbind outcome_bind].
  rewrite Et, Ed, Es, !Run_bind_lift.
  subst h2 h1 d1 budgetName actionID input accountID.
  split; [intros err Hwait | intros action Hwait];
    unfold mbind at 1, Run_bind at 1;
    rewrite (RetryWhenAwsErrCodeEquals_answered PropagationTimeout _ _
               ErrCodeAccessDeniedException h n output Hn Hrefused Hcreated);
    rewrite Run_bind_call; by rewrite Hwait.
Qed.

End LifecycleMore.

(** Resource data whose identifier has two components only. *)
Lemma parse_error_no_call_witness :
  resourceAwsBudgetsBudgetActionRead sample_BudgetActionParseResourceID sample_flattenStringSet
    (SetId sample_data "123456789012/monthly") (sample_meta sample_conn) []
  = (Done (SetId sample_data "123456789012/monthly",
           Some (ErrorString "unexpected format for ID (123456789012/monthly)")), [])
  ∧ resourceAwsBudgetsBudgetActionUpdate sample_BudgetActionParseResourceID
        sample_expandStringSet sample_flattenStringSet
      (SetId sample_data "123456789012/monthly") (sample_meta sample_conn) []
    = (Done (SetId sample_data "123456789012/monthly",
             Some (ErrorString "unexpected format for ID (123456789012/monthly)")), [])
  ∧ resourceAwsBudgetsBudgetActionDelete sample_BudgetActionParseResourceID
      (SetId sample_data "123456789012/monthly") (sample_meta sample_conn) []
    = (Done (SetId sample_data "123456789012/monthly",
             Some (ErrorString "unexpected format for ID (123456789012/monthly)")), []).
Proof.
  apply (parse_error_no_call sample_BudgetActionParseResourceID
             sample_expandStringSet sample_flattenStringSet
           (SetId sample_data "123456789012/monthly") (sample_meta sample_conn) []).
  reflexivity.
Defined.

(** The sample action read from a vendor that has it. *)
Lemma Read_refreshes_witness :
  ∃ d',
    resourceAwsBudgetsBudgetActionRead sample_BudgetActionParseResourceID
        sample_flattenStringSet sample_data
      (sample_meta sample_conn) []
    = (Done (d', None),
       [CallActionByAccountIDActionIDAndBudgetName "123456789012" "a1b2c3" "monthly"])
    ∧ Get d' "approval_model" = VString "AUTOMATIC"
    ∧ Get d' "status" = VString "STANDBY"
    ∧ Get d' "arn" = VString "arn:aws:budgets::123456789012:budget/monthly/action/a1b2c3".
Proof.
  destruct (Read_refreshes sample_BudgetActionParseResourceID
                sample_flattenStringSet sample_data (sample_meta sample_conn) []
              "123456789012" "a1b2c3" "monthly" sample_action eq_refl eq_refl eq_refl)
    as (d' & subscribers & Hrun & _ & _ & _ & _ & _ & _ & Happroval & _ & _ & _ & _
        & Hstatus & _ & Harn & _).
  exists d'. split; [exact Hrun |]. split; [exact Happroval |].
  split; [exact Hstatus | exact Harn].
Defined.

(** The sample action read from a vendor that no longer has it. *)
Lemma Read_frame_witness :
  (resourceAwsBudgetsBudgetActionRead sample_BudgetActionParseResourceID
       sample_flattenStringSet sample_data
     (sample_meta sample_conn_gone) []).2
  = [CallActionByAccountIDActionIDAndBudgetName "123456789012" "a1b2c3" "monthly"].
Proof.
  apply (Read_frame sample_BudgetActionParseResourceID
             sample_flattenStringSet sample_data (sample_meta sample_conn_gone) []
           "123456789012" "a1b2c3" "monthly" eq_refl).
Defined.

(** The sample action deleted at a vendor that has it. *)
Lemma Delete_outcome_witness :
  resourceAwsBudgetsBudgetActionDelete sample_BudgetActionParseResourceID
      sample_data (sample_meta sample_conn) []
  = (Done (sample_data, None),
     [CallDeleteBudgetAction
        {| DeleteBudgetActionInput.AccountId := Some "123456789012";
           DeleteBudgetActionInput.ActionId := Some "a1b2c3";
           DeleteBudgetActionInput.BudgetName := Some "monthly" |}]).
Proof.
  destruct (Delete_outcome sample_BudgetActionParseResourceID
                sample_data (sample_meta sample_conn) []
              "123456789012" "a1b2c3" "monthly" eq_refl) as (err & Hrun & Herr).
  rewrite Hrun. replace err with (@None error); [reflexivity |].
  symmetry. apply Herr. exact I.
Defined.

(** The sample action updated at a vendor that has lost it. *)
Lemma Update_completion_witness :
  ∃ input,
    resourceAwsBudgetsBudgetActionUpdate sample_BudgetActionParseResourceID
        sample_expandStringSet sample_flattenStringSet
      sample_data (sample_meta sample_conn_gone) []
    = (Done (sample_data,
             Some (Errorf "error updating Budget Action (123456789012/a1b2c3/monthly)"
                     (AwsError ErrCodeNotFoundException "no such action"))),
       [CallUpdateBudgetAction input]).
Proof.
  assert (well_typed sample_data = true) as Hwt by (vm_compute; reflexivity).
  destruct (Update_completion sample_BudgetActionParseResourceID
                sample_expandStringSet sample_flattenStringSet sample_data
              (sample_meta sample_conn_gone) [] "123456789012" "a1b2c3" "monthly"
              eq_refl Hwt) as (input & Hrefused & _).
  exists input.
  exact (Hrefused (AwsError ErrCodeNotFoundException "no such action") eq_refl).
Defined.

(** The sample action created at a vendor that carries out every call:
    the first attempt is answered, and create ends as the read of the new
    resource does. *)
Lemma Create_completion_witness :
  ∃ input,
    CreateBudgetActionInput.AccountId input = Some "123456789012"
    ∧ CreateBudgetActionInput.ApprovalModel input = Some "MANUAL"
    ∧ resourceAwsBudgetsBudgetActionCreate sample_BudgetActionParseResourceID
        sample_expandStringSet sample_flattenStringSet 5
        sample_data (sample_meta sample_conn) []
      = resourceAwsBudgetsBudgetActionRead sample_BudgetActionParseResourceID
          sample_flattenStringSet
          (SetId sample_data "123456789012/a1b2c3/monthly") (sample_meta sample_conn)
          [CallCreateBudgetAction input;
           CallActionAvailable "123456789012" "a1b2c3" "monthly"].
Proof.
  assert (well_typed sample_data = true) as Hwt by (vm_compute; reflexivity).
  destruct (Create_completion sample_BudgetActionParseResourceID sample_expandStringSet
              sample_flattenStringSet 5 sample_data (sample_meta sample_conn) [] Hwt)
    as (configured & lt & actionType & approvalModel & name & ld & executionRoleArn
        & notificationType & ls & actionThreshold & definition & subscribers
        & Hconfigured & _ & _ & Happroval & _ & _ & _ & _ & _ & _ & _ & _ & Hcreate).
  vm_compute in Hconfigured. injection Hconfigured as <-.
  vm_compute in Happroval. injection Happroval as <-.
  cbv zeta in Hcreate.
  assert (0 ≤ 5)%nat as Hn by lia.
  destruct (Hcreate 0%nat _ Hn (λ i Hi, False_ind _ (Nat.nlt_0_r i Hi)) eq_refl)
    as [_ Hread].
  refine (ex_intro _ _ (conj _ (conj _ (Hread sample_action eq_refl)))); reflexivity.
Defined.

(** * The checks of the EC2 tag resource *)

Section Ec2TagCheckProperties.

Variable GetResourceID : string → result (string * string).
Variable Ec2GetTag : string → string → result (option string).

(** The destroy check passes over a resource whose tag is gone. *)
Lemma testAccCheckEc2TagDestroy_gone (rs : terraform.ResourceState)
    (rest : list terraform.ResourceState) :
  tag_gone GetResourceID Ec2GetTag rs = true →
  testAccCheckEc2TagDestroy GetResourceID Ec2GetTag (rs :: rest)
  = testAccCheckEc2TagDestroy GetResourceID Ec2GetTag rest.
Proof.
  unfold tag_gone. cbn [testAccCheckEc2TagDestroy].
  destruct (bool_decide (terraform.Type_ rs ≠ "aws_ec2_tag")); [done |].
  destruct (terraform.Primary rs) as [primary|]; [| done]. cbn [deref mbind outcome_bind].
  destruct (GetResourceID (terraform.ID primary)) as [[identifier key]|err]; [| done].
  destruct (Ec2GetTag identifier key) as [tag|err]; [done |]. by intros ->.
Qed.

(** The destroy check stops at a resource whose tag is not gone, with an
    error or a panic. *)
Lemma testAccCheckEc2TagDestroy_stop (rs : terraform.ResourceState)
    (rest : list terraform.ResourceState) :
  tag_gone GetResourceID Ec2GetTag rs = false →
  testAccCheckEc2TagDestroy GetResourceID Ec2GetTag (rs :: rest)
  = testAccCheckEc2TagDestroy GetResourceID Ec2GetTag [rs]
  ∧ testAccCheckEc2TagDestroy GetResourceID Ec2GetTag [rs] ≠ Done None.
Proof.
  unfold tag_gone. cbn [testAccCheckEc2TagDestroy].
  destruct (bool_decide (terraform.Type_ rs ≠ "aws_ec2_tag")); [done |].
  destruct (terraform.Primary rs) as [primary|]; [| done]. cbn [deref mbind outcome_bind].
  destruct (GetResourceID (terraform.ID primary)) as [[identifier key]|err]; [| done].
  destruct (Ec2GetTag identifier key) as [tag|err]; [done |]. by intros ->.
Qed.

(** The same with the resources that are passed over as a predicate. *)
Lemma testAccCheckEc2TagDestroy_Forall (resources : list terraform.ResourceState) :
  testAccCheckEc2TagDestroy GetResourceID Ec2GetTag resources = Done None
  ↔ Forall (λ rs, tag_gone GetResourceID Ec2GetTag rs = true) resources.
Proof.
  induction resources as [|rs rest IH]; [done |]. rewrite Forall_cons.
  destruct (tag_gone GetResourceID Ec2GetTag rs) eqn:Hgone.
  - rewrite testAccCheckEc2TagDestroy_gone by done. tauto.
  - destruct (testAccCheckEc2TagDestroy_stop rs rest Hgone) as [-> Hstop].
    split; [done | by intros [? _]].
Qed.

(** X21. The destroy check returns no error exactly when every resource
    of the state is passed over: it is no [aws_ec2_tag] resource, or it
    has a primary instance whose identifier parses and whose tag the
    vendor reports as not found. *)
Theorem testAccCheckEc2TagDestroy_nil (resources : list terraform.ResourceState) :
  testAccCheckEc2TagDestroy GetResourceID Ec2GetTag resources = Done None
  ↔ forallb (tag_gone GetResourceID Ec2GetTag) resources = true.
Proof.
  induction resources as [|rs rest IH]; [done |]. cbn [forallb].
  destruct (tag_gone GetResourceID Ec2GetTag rs) eqn:Hgone.
  - by rewrite testAccCheckEc2TagDestroy_gone.
  - destruct (testAccCheckEc2TagDestroy_stop rs rest Hgone) as [-> Hstop]. done.
Qed.

(** X22. The resources that the destroy check passes over do not count:
    behind any number of them, the check gives what it gives for the
    resources that follow. So the first resource whose tag is not gone
    decides the error. *)
Theorem testAccCheckEc2TagDestroy_first (passed rest : list terraform.ResourceState) :
  forallb (tag_gone GetResourceID Ec2GetTag) passed = true →
  testAccCheckEc2TagDestroy GetResourceID Ec2GetTag (passed ++ rest)
  = testAccCheckEc2TagDestroy GetResourceID Ec2GetTag rest.
Proof.
  induction passed as [|rs passed IH]; [done |]. cbn [forallb app].
  intros [Hgone Hpassed]%andb_true_iff.
  rewrite testAccCheckEc2TagDestroy_gone by done. by apply IH.
Qed.

(** X23. Whether the destroy check returns no error does not depend on
    the order in which the resources of the state are visited. *)
Theorem testAccCheckEc2TagDestroy_order (resources resources' : list terraform.ResourceState) :
  resources ≡ₚ resources' →
  testAccCheckEc2TagDestroy GetResourceID Ec2GetTag resources = Done None
  ↔ testAccCheckEc2TagDestroy GetResourceID Ec2GetTag resources' = Done None.
Proof.
  intros Hperm. rewrite !testAccCheckEc2TagDestroy_Forall. by rewrite Hperm.
Qed.

(** X24. The two checks exclude each other. When the exists check returns
    no error for a named resource of the type [aws_ec2_tag], the destroy
    check on the resources of the same state, in whatever order, returns
    an error or panics. *)
Theorem testAccCheckEc2TagExists_Destroy (resourceName : string)
    (state : gmap string terraform.ResourceState) (rs : terraform.ResourceState)
    (resources : list terraform.ResourceState) :
  testAccCheckEc2TagExists GetResourceID Ec2GetTag resourceName state = Done None →
  state !! resourceName = Some rs →
  terraform.Type_ rs = "aws_ec2_tag" →
  resources ≡ₚ (map_to_list state).*2 →
  testAccCheckEc2TagDestroy GetResourceID Ec2GetTag resources = Panic
  ∨ ∃ err, testAccCheckEc2TagDestroy GetResourceID Ec2GetTag resources = Done (Some err).
Proof.
  intros Hexists Hrs Htype Hperm.
  assert (tag_gone GetResourceID Ec2GetTag rs = false) as Hgone.
  { unfold testAccCheckEc2TagExists in Hexists. rewrite Hrs in Hexists.
    unfold tag_gone. rewrite bool_decide_eq_false_2 by (by intros H; apply H).
    destruct (terraform.Primary rs) as [primary|]; [| done].
    cbn [deref mbind outcome_bind] in Hexists.
    destruct (bool_decide (terraform.ID primary = "")); [done |].
    destruct (GetResourceID (terraform.ID primary)) as [[identifier key]|err]; [| done].
    by destruct (Ec2GetTag identifier key). }
  assert (rs ∈ resources) as Hin.
  { rewrite Hperm. apply list_elem_of_fmap. exists (resourceName, rs).
    split; [done |]. by apply elem_of_map_to_list. }
  destruct (testAccCheckEc2TagDestroy GetResourceID Ec2GetTag resources)
    as [[err|]|] eqn:Hdestroy; [right; by exists err | | by left].
  apply testAccCheckEc2TagDestroy_Forall in Hdestroy.
  rewrite Forall_forall in Hdestroy.
  specialize (Hdestroy rs Hin). rewrite Hgone in Hdestroy. done.
Qed.

End Ec2TagCheckProperties.

(** A state with an instance and with a tag that the vendor has lost. *)
Lemma testAccCheckEc2TagDestroy_first_witness :
  testAccCheckEc2TagDestroy sample_GetResourceID sample_Ec2GetTag
    (sample_tag_resources
     ++ [ {| terraform.Type_ := "aws_ec2_tag";
             terraform.Primary := Some {| terraform.ID := "i-0123456789abcdef0,Name" |} |} ])
  = Done (Some (ErrorString
                  "EC2 resource (i-0123456789abcdef0) tag (Name) still exists")).
Proof.
  rewrite (testAccCheckEc2TagDestroy_first sample_GetResourceID sample_Ec2GetTag
             sample_tag_resources _ eq_refl).
  reflexivity.
Defined.

(** The sample resources in the other order. *)
Lemma testAccCheckEc2TagDestroy_order_witness :
  testAccCheckEc2TagDestroy sample_GetResourceID sample_Ec2GetTag
    (reverse sample_tag_resources) = Done None.
Proof.
  apply (testAccCheckEc2TagDestroy_order sample_GetResourceID sample_Ec2GetTag
           sample_tag_resources (reverse sample_tag_resources)).
  - symmetry. apply reverse_Permutation.
  - reflexivity.
Defined.

(** The sample state, whose tag the vendor has. *)
Lemma testAccCheckEc2TagExists_Destroy_witness :
  ∃ err,
    testAccCheckEc2TagDestroy sample_GetResourceID sample_Ec2GetTag
      (map_to_list sample_tag_state).*2 = Done (Some err).
Proof.
  destruct (testAccCheckEc2TagExists_Destroy sample_GetResourceID sample_Ec2GetTag
              "aws_ec2_tag.name" sample_tag_state
              {| terraform.Type_ := "aws_ec2_tag";
                 terraform.Primary := Some {| terraform.ID := "i-0123456789abcdef0,Name" |} |}
              (map_to_list sample_tag_state).*2 eq_refl eq_refl eq_refl
              (reflexivity _)) as [Hpanic | Herr].
  - vm_compute in Hpanic. discriminate.
  - exact Herr.
Defined.

(** * Validation and the expanders *)

Section SchemaExpand.

Variable expandStringSet : list value → slice (option string).
Variable validateArn : SchemaValidateFunc.

(** A nested list that the schema lets through holds maps only. *)
Lemma optional_block_nested_block_list (block : value → bool) (x : option value) :
  (∀ v, block v = true → is_map v = true) →
  optional_block block x = true → nested_block_list x = true.
Proof.
  intros Hblock. unfold optional_block, nested_block_list.
  destruct x as [[| | |l| |]|]; try done. cbn [assert_list].
  intros [_ Hl]%andb_true_iff. destruct l as [|v l]; [done |].
  cbn [forallb] in Hl. apply andb_true_iff in Hl as [Hv _].
  cbn [block_list]. specialize (Hblock v Hv). by destruct v.
Qed.

(** X25. A [definition] that validation against the schema lets through
    never makes the expander panic: the expander returns a definition,
    which is not nil exactly when the block is not empty. *)
Theorem definition_schema_expand (l : list value) :
  definition_schema validateArn l = true →
  ∃ def, expandAwsBudgetsBudgetActionActionDefinition expandStringSet l = Done def
         ∧ non_nil def = populated l.
Proof.
  intros [Hlen Hblocks]%andb_true_iff.
  apply expandAwsBudgetsBudgetActionActionDefinition_definition_list.
  destruct l as [|v l]; [done |]. cbn [forallb] in Hblocks.
  apply andb_true_iff in Hblocks as [Hv _].
  destruct v as [| | | | |m]; try done. cbn [definition_block_schema] in Hv.
  apply andb_true_iff in Hv as [[Hiam Hssm]%andb_true_iff Hscp].
  cbn [definition_list]. rewrite !andb_true_iff. split; [split |].
  - eapply optional_block_nested_block_list; [| exact Hssm]. by intros [].
  - eapply optional_block_nested_block_list; [| exact Hscp]. by intros [].
  - eapply optional_block_nested_block_list; [| exact Hiam]. by intros [].
Qed.

End SchemaExpand.

(** The sample definition with the SSM branch alone. *)
Lemma definition_schema_expand_witness :
  ∃ def, expandAwsBudgetsBudgetActionActionDefinition sample_expandStringSet
           sample_definition_ssm = Done (Some def).
Proof.
  destruct (definition_schema_expand sample_expandStringSet reject_all sample_definition_ssm)
    as (def & Hdef & Hnil); [vm_compute; reflexivity |].
  destruct def as [def|]; [by exists def | discriminate].
Defined.
